(** * Metadata retrieval index, precommit constraint and coupon listing

    A shallow embedding of
    - [satellite/metainfo/metabase/get.go]: the read path of the metabase
      (exact and latest object version, segment by position and by offset,
      bucket emptiness);
    - the precommit constraint exercised by the metabase tests;
    - the coupon repository of the satellite database (row conversion and
      paged listing).

    Tables are lists of rows in storage order.  A query is a function of the
    tables; every query sent to the backend bumps a counter of the handle, so
    that "rejected before any query" is a statement about that counter.
    Column values are integers and SQL arithmetic on them is exact.  The
    context argument and the monitoring hook ([mon.Task]) of every method
    are left out: they do not take part in the result. *)

From Stdlib Require Import ZArith List String Bool Lia Sorted.
From Stdlib Require Import Ascii.
From Stdlib.Strings Require Byte.
Import ListNotations.
Local Open Scope string_scope.
Local Open Scope Z_scope.

(** ** Generic helpers: SQL's ORDER BY and LIMIT 1 over a list of rows *)

Section OrderBy.
Context {A : Type}.
Variable key : A -> Z.

(** [insert_asc x l] puts [x] in front of the first row whose key is not
    smaller than the key of [x]. *)
Fixpoint insert_asc (x : A) (l : list A) : list A :=
  match l with
  | [] => [x]
  | y :: l' => if key y <? key x then y :: insert_asc x l' else x :: l
  end.

(** ORDER BY key ASC; rows with equal keys keep their storage order. *)
Definition order_by_asc (l : list A) : list A :=
  fold_right insert_asc [] l.

End OrderBy.

(** ORDER BY key DESC. *)
Definition order_by_desc {A : Type} (key : A -> Z) (l : list A) : list A :=
  order_by_asc (fun x => - key x) l.

(** LIMIT 1: the first row, if any. *)
Definition limit_1 {A : Type} (l : list A) : option A :=
  match l with
  | [] => None
  | r :: _ => Some r
  end.

(** ** Errors: classes of [zeebo/errs] and the sentinel of [database/sql] *)

Module errs.

Inductive Class : Set :=
| ErrInvalidRequest   (* metabase.ErrInvalidRequest *)
| ErrObjectNotFound   (* storj.ErrObjectNotFound *)
| Error               (* metabase.Error, the generic class of the package *)
| ErrObjectLock       (* metabase.ErrObjectLock *)
| ErrConflict.        (* conflict raised by DisallowDelete *)

Definition Class_eqb (a b : Class) : bool :=
  match a, b with
  | ErrInvalidRequest, ErrInvalidRequest
  | ErrObjectNotFound, ErrObjectNotFound
  | Error, Error
  | ErrObjectLock, ErrObjectLock
  | ErrConflict, ErrConflict => true
  | _, _ => false
  end.

(** An error value.  [New c fmt] is [c.New(fmt, args...)] (the arguments of
    the format are not kept), [Newf c fmt w] is the same with a [%w] operand,
    [Wrap c e] is [c.Wrap(e)]. *)
Inductive error : Set :=
| sql_ErrNoRows
| driver (msg : string)
| New (c : Class) (format : string)
| Newf (c : Class) (format : string) (w : error)
| Wrap (c : Class) (e : error).

(** [Has c e] is [c.Has(e)]: some layer of [e] belongs to class [c]. *)
Fixpoint Has (c : Class) (e : error) : bool :=
  match e with
  | sql_ErrNoRows => false
  | driver _ => false
  | New c' _ => Class_eqb c c'
  | Newf c' _ w => Class_eqb c c' || Has c w
  | Wrap c' e' => Class_eqb c c' || Has c e'
  end.

(** [errors.Is(e, sql.ErrNoRows)]. *)
Fixpoint Is_ErrNoRows (e : error) : bool :=
  match e with
  | sql_ErrNoRows => true
  | driver _ => false
  | New _ _ => false
  | Newf _ _ w => Is_ErrNoRows w
  | Wrap _ e' => Is_ErrNoRows e'
  end.

End errs.
Import errs.

(** ** The metabase package *)

Module metabase.

(** [uuid.UUID] is sixteen bytes; it is kept as the number they spell. *)
Definition UUID := N.

Definition UUID_IsZero (u : UUID) : bool := N.eqb u 0%N.

Definition bytes := list Byte.byte.

(** [time.Time] as an instant on an integer time line. *)
Definition Time := Z.

Definition Version := Z.

(** [ObjectStatus] is a byte.  The two values objects are stored with; the
    zero value of the type is neither. *)
Definition ObjectStatus := Z.
Definition Pending : ObjectStatus := 1.
Definition Committed : ObjectStatus := 3.

(** The sentinel every query compares the status column with: the text of
    [Committed], spliced into the WHERE clause. *)
Definition committedStatus : ObjectStatus := Committed.

Module ObjectLocation.

Record t : Set := mk {
  ProjectID : UUID;
  BucketName : string;
  ObjectKey : string
}.

(** Modelled from the spec: [ObjectLocation.Verify] is declared outside
    [get.go].  "fails with InvalidRequest if ... location fields are empty";
    the order of the checks and the messages follow the two checks that
    [BucketEmpty] spells out itself. *)
Definition Verify (obj : t) : option error :=
  if UUID_IsZero (ProjectID obj) then Some (New ErrInvalidRequest "ProjectID missing")
  else if String.eqb (BucketName obj) "" then Some (New ErrInvalidRequest "BucketName missing")
  else if (String.length (ObjectKey obj) =? 0)%nat then Some (New ErrInvalidRequest "ObjectKey missing")
  else None.

End ObjectLocation.

Module EncryptionParameters.

Record t : Set := mk {
  CipherSuite : Z;
  BlockSize : Z
}.

Definition zero : t := mk 0 0.

End EncryptionParameters.

(** [Object] is [RawObject]: one row of the [objects] table, with the columns
    [get.go] reads and writes. *)
Module Object.

Record t : Set := mk {
  ProjectID : UUID;
  BucketName : string;
  ObjectKey : string;
  Version : Version;
  StreamID : UUID;
  CreatedAt : Time;
  ExpiresAt : option Time;
  Status : ObjectStatus;
  SegmentCount : Z;
  EncryptedMetadataNonce : bytes;
  EncryptedMetadata : bytes;
  EncryptedMetadataEncryptedKey : bytes;
  TotalEncryptedSize : Z;
  FixedSegmentSize : Z;
  Encryption : EncryptionParameters.t
}.

(** [Object{}]. *)
Definition zero : t :=
  mk 0%N "" "" 0 0%N 0 None 0 0 [] [] [] 0 0 EncryptionParameters.zero.

Definition Location (o : t) : ObjectLocation.t :=
  ObjectLocation.mk (ProjectID o) (BucketName o) (ObjectKey o).

(** Field assignments [object.F = v]. *)
Definition set_ProjectID (v : UUID) (o : t) : t :=
  mk v (BucketName o) (ObjectKey o) (Version o) (StreamID o) (CreatedAt o)
     (ExpiresAt o) (Status o) (SegmentCount o) (EncryptedMetadataNonce o)
     (EncryptedMetadata o) (EncryptedMetadataEncryptedKey o)
     (TotalEncryptedSize o) (FixedSegmentSize o) (Encryption o).

Definition set_BucketName (v : string) (o : t) : t :=
  mk (ProjectID o) v (ObjectKey o) (Version o) (StreamID o) (CreatedAt o)
     (ExpiresAt o) (Status o) (SegmentCount o) (EncryptedMetadataNonce o)
     (EncryptedMetadata o) (EncryptedMetadataEncryptedKey o)
     (TotalEncryptedSize o) (FixedSegmentSize o) (Encryption o).

Definition set_ObjectKey (v : string) (o : t) : t :=
  mk (ProjectID o) (BucketName o) v (Version o) (StreamID o) (CreatedAt o)
     (ExpiresAt o) (Status o) (SegmentCount o) (EncryptedMetadataNonce o)
     (EncryptedMetadata o) (EncryptedMetadataEncryptedKey o)
     (TotalEncryptedSize o) (FixedSegmentSize o) (Encryption o).

Definition set_Version (v : metabase.Version) (o : t) : t :=
  mk (ProjectID o) (BucketName o) (ObjectKey o) v (StreamID o) (CreatedAt o)
     (ExpiresAt o) (Status o) (SegmentCount o) (EncryptedMetadataNonce o)
     (EncryptedMetadata o) (EncryptedMetadataEncryptedKey o)
     (TotalEncryptedSize o) (FixedSegmentSize o) (Encryption o).

Definition set_Status (v : ObjectStatus) (o : t) : t :=
  mk (ProjectID o) (BucketName o) (ObjectKey o) (Version o) (StreamID o)
     (CreatedAt o) (ExpiresAt o) v (SegmentCount o) (EncryptedMetadataNonce o)
     (EncryptedMetadata o) (EncryptedMetadataEncryptedKey o)
     (TotalEncryptedSize o) (FixedSegmentSize o) (Encryption o).

(** [Scan] of the ten columns [GetObjectExactVersion] selects from [row]
    into [object]: stream_id, created_at, expires_at, segment_count, the
    three encrypted metadata columns, total_encrypted_size,
    fixed_segment_size, encryption. *)
Definition Scan_exact (row object : t) : t :=
  mk (ProjectID object) (BucketName object) (ObjectKey object) (Version object)
     (StreamID row) (CreatedAt row) (ExpiresAt row) (Status object)
     (SegmentCount row) (EncryptedMetadataNonce row) (EncryptedMetadata row)
     (EncryptedMetadataEncryptedKey row) (TotalEncryptedSize row)
     (FixedSegmentSize row) (Encryption row).

(** [Scan] of the eleven columns [GetObjectLatestVersion] selects: the ten
    above and version. *)
Definition Scan_latest (row object : t) : t :=
  mk (ProjectID object) (BucketName object) (ObjectKey object) (Version row)
     (StreamID row) (CreatedAt row) (ExpiresAt row) (Status object)
     (SegmentCount row) (EncryptedMetadataNonce row) (EncryptedMetadata row)
     (EncryptedMetadataEncryptedKey row) (TotalEncryptedSize row)
     (FixedSegmentSize row) (Encryption row).

End Object.

Module SegmentPosition.

Record t : Set := mk {
  Part : Z;
  Index : Z
}.

Definition zero : t := mk 0 0.

(** The [position] column holds the encoded position: the part in the high
    32 bits, the index in the low 32 bits. *)
Definition Encode (pos : t) : Z :=
  Z.lor (Z.shiftl (Part pos) 32) (Index pos).

End SegmentPosition.

Module RedundancyScheme.

Record t : Set := mk {
  Algorithm : Z;
  ShareSize : Z;
  RequiredShares : Z;
  RepairShares : Z;
  OptimalShares : Z;
  TotalShares : Z
}.

Definition zero : t := mk 0 0 0 0 0 0.

End RedundancyScheme.

Module Piece.

Record t : Set := mk {
  Number : Z;
  StorageNode : bytes
}.

End Piece.

(** [Segment] is [RawSegment]: one row of the [segments] table. *)
Module Segment.

Record t : Set := mk {
  StreamID : UUID;
  Position : SegmentPosition.t;
  RootPieceID : bytes;
  EncryptedKeyNonce : bytes;
  EncryptedKey : bytes;
  EncryptedSize : Z;
  PlainOffset : Z;
  PlainSize : Z;
  Redundancy : RedundancyScheme.t;
  InlineData : bytes;
  Pieces : list Piece.t
}.

(** [Segment{}]. *)
Definition zero : t :=
  mk 0%N SegmentPosition.zero [] [] [] 0 0 0 RedundancyScheme.zero [] [].

Definition set_StreamID (v : UUID) (s : t) : t :=
  mk v (Position s) (RootPieceID s) (EncryptedKeyNonce s) (EncryptedKey s)
     (EncryptedSize s) (PlainOffset s) (PlainSize s) (Redundancy s)
     (InlineData s) (Pieces s).

Definition set_Position (v : SegmentPosition.t) (s : t) : t :=
  mk (StreamID s) v (RootPieceID s) (EncryptedKeyNonce s) (EncryptedKey s)
     (EncryptedSize s) (PlainOffset s) (PlainSize s) (Redundancy s)
     (InlineData s) (Pieces s).

(** [Scan] of the nine columns [GetSegmentByPosition] selects from [row]
    into [segment]: every column but stream_id and position. *)
Definition Scan_payload (row segment : t) : t :=
  mk (StreamID segment) (Position segment) (RootPieceID row)
     (EncryptedKeyNonce row) (EncryptedKey row) (EncryptedSize row)
     (PlainOffset row) (PlainSize row) (Redundancy row) (InlineData row)
     (Pieces row).

(** [Scan] of all eleven columns: stream_id and position, then the nine
    above. *)
Definition Scan_all (row segment : t) : t :=
  mk (StreamID row) (Position row) (RootPieceID row)
     (EncryptedKeyNonce row) (EncryptedKey row) (EncryptedSize row)
     (PlainOffset row) (PlainSize row) (Redundancy row) (InlineData row)
     (Pieces row).

End Segment.

(** *** Request structures *)

Module GetObjectExactVersion.

Record t : Set := mk {
  Version : Version;
  Location : ObjectLocation.t
}.

Definition Verify (obj : t) : option error :=
  match ObjectLocation.Verify (Location obj) with
  | Some err => Some err
  | None =>
      if Version obj <=? 0
      then Some (New ErrInvalidRequest "Version invalid: %v")
      else None
  end.

End GetObjectExactVersion.

Module GetObjectLatestVersion.

Record t : Set := mk {
  Location : ObjectLocation.t
}.

Definition Verify (obj : t) : option error :=
  ObjectLocation.Verify (Location obj).

End GetObjectLatestVersion.

Module GetSegmentByPosition.

Record t : Set := mk {
  StreamID : UUID;
  Position : SegmentPosition.t
}.

Definition Verify (seg : t) : option error :=
  if UUID_IsZero (StreamID seg)
  then Some (New ErrInvalidRequest "StreamID missing")
  else None.

End GetSegmentByPosition.

Module GetLatestObjectLastSegment.

Record t : Set := mk {
  Location : ObjectLocation.t
}.

Definition Verify (obj : t) : option error :=
  ObjectLocation.Verify (Location obj).

End GetLatestObjectLastSegment.

Module GetSegmentByOffset.

Record t : Set := mk {
  Location : ObjectLocation.t;
  PlainOffset : Z
}.

Definition Verify (obj : t) : option error :=
  ObjectLocation.Verify (Location obj).

End GetSegmentByOffset.

Module BucketEmpty.

Record t : Set := mk {
  ProjectID : UUID;
  BucketName : string
}.

End BucketEmpty.

(** *** The database handle and the read path *)

Module DB.

(** The two tables, and the number of queries sent to the backend through
    this handle. *)
Record t : Set := mk {
  objects : list Object.t;
  segments : list Segment.t;
  issued : nat
}.

(** [db.db.QueryRow(ctx, query, args...)]: one more query has been sent. *)
Definition sent (db : t) : t :=
  mk (objects db) (segments db) (S (issued db)).

(** [Row.Scan]: the first row of the result, or [sql.ErrNoRows]. *)
Definition Scan {A : Type} (rows : list A) : error + A :=
  match limit_1 rows with
  | Some r => inr r
  | None => inl sql_ErrNoRows
  end.

(** WHERE project_id = $1 AND bucket_name = $2 AND object_key = $3. *)
Definition at_location (loc : ObjectLocation.t) (o : Object.t) : bool :=
  N.eqb (Object.ProjectID o) (ObjectLocation.ProjectID loc)
  && String.eqb (Object.BucketName o) (ObjectLocation.BucketName loc)
  && String.eqb (Object.ObjectKey o) (ObjectLocation.ObjectKey loc).

(** ... AND status = committedStatus. *)
Definition committed_at (loc : ObjectLocation.t) (o : Object.t) : bool :=
  at_location loc o && (Object.Status o =? committedStatus).

(** SELECT ... FROM objects WHERE project_id = $1 AND bucket_name = $2 AND
    object_key = $3 AND version = $4 AND status = committedStatus. *)
Definition select_exact_version (db : t) (loc : ObjectLocation.t) (v : Version)
  : list Object.t :=
  filter (fun o => at_location loc o && (Object.Version o =? v)
                   && (Object.Status o =? committedStatus))
         (objects db).

(** SELECT ... FROM objects WHERE project_id = $1 AND bucket_name = $2 AND
    object_key = $3 AND status = committedStatus ORDER BY version DESC. *)
Definition select_latest_version (db : t) (loc : ObjectLocation.t)
  : list Object.t :=
  order_by_desc Object.Version (filter (committed_at loc) (objects db)).

(** The scalar subquery (SELECT stream_id FROM objects WHERE ... ORDER BY
    version DESC LIMIT 1); it is NULL when no row qualifies. *)
Definition latest_stream_id (db : t) (loc : ObjectLocation.t) : option UUID :=
  option_map Object.StreamID (limit_1 (select_latest_version db loc)).

(** [stream_id = (subquery)]: never true against NULL. *)
Definition stream_is (sub : option UUID) (s : Segment.t) : bool :=
  match sub with
  | Some id => N.eqb (Segment.StreamID s) id
  | None => false
  end.

Definition GetObjectExactVersion (db : t) (opts : GetObjectExactVersion.t)
  : (Object.t * option error) * t :=
  match GetObjectExactVersion.Verify opts with
  | Some err => ((Object.zero, Some err), db)
  | None =>
      let loc := GetObjectExactVersion.Location opts in
      let version := GetObjectExactVersion.Version opts in
      let db' := sent db in
      match Scan (select_exact_version db loc version) with
      | inl err =>
          if Is_ErrNoRows err
          then ((Object.zero, Some (Wrap ErrObjectNotFound (Wrap Error err))), db')
          else ((Object.zero,
                 Some (Newf Error "unable to query object status: %w" err)), db')
      | inr row =>
          let object := Object.Scan_exact row Object.zero in
          let object := Object.set_ProjectID (ObjectLocation.ProjectID loc) object in
          let object := Object.set_BucketName (ObjectLocation.BucketName loc) object in
          let object := Object.set_ObjectKey (ObjectLocation.ObjectKey loc) object in
          let object := Object.set_Version version object in
          let object := Object.set_Status Committed object in
          ((object, None), db')
      end
  end.

Definition GetObjectLatestVersion (db : t) (opts : GetObjectLatestVersion.t)
  : (Object.t * option error) * t :=
  match GetObjectLatestVersion.Verify opts with
  | Some err => ((Object.zero, Some err), db)
  | None =>
      let loc := GetObjectLatestVersion.Location opts in
      let db' := sent db in
      match Scan (select_latest_version db loc) with
      | inl err =>
          if Is_ErrNoRows err
          then ((Object.zero, Some (Wrap ErrObjectNotFound (Wrap Error err))), db')
          else ((Object.zero,
                 Some (Newf Error "unable to query object status: %w" err)), db')
      | inr row =>
          let object := Object.Scan_latest row Object.zero in
          let object := Object.set_ProjectID (ObjectLocation.ProjectID loc) object in
          let object := Object.set_BucketName (ObjectLocation.BucketName loc) object in
          let object := Object.set_ObjectKey (ObjectLocation.ObjectKey loc) object in
          let object := Object.set_Status Committed object in
          ((object, None), db')
      end
  end.

(** SELECT ... FROM objects, segments WHERE segments.stream_id = $1 AND
    segments.position = $2: the cross product of both tables, of which only
    segment columns are tested and selected. *)
Definition select_segment_by_position (db : t) (id : UUID) (position : Z)
  : list Segment.t :=
  map snd
      (filter (fun os : Object.t * Segment.t =>
                 N.eqb (Segment.StreamID (snd os)) id
                 && (SegmentPosition.Encode (Segment.Position (snd os)) =? position))
              (list_prod (objects db) (segments db))).

Definition GetSegmentByPosition (db : t) (opts : GetSegmentByPosition.t)
  : (Segment.t * option error) * t :=
  match GetSegmentByPosition.Verify opts with
  | Some err => ((Segment.zero, Some err), db)
  | None =>
      let db' := sent db in
      match Scan (select_segment_by_position db
                    (GetSegmentByPosition.StreamID opts)
                    (SegmentPosition.Encode (GetSegmentByPosition.Position opts))) with
      | inl err =>
          if Is_ErrNoRows err
          then ((Segment.zero, Some (New Error "segment missing")), db')
          else ((Segment.zero, Some (Newf Error "unable to query segment: %w" err)), db')
      | inr row =>
          let segment := Segment.Scan_payload row Segment.zero in
          let segment := Segment.set_StreamID (GetSegmentByPosition.StreamID opts) segment in
          let segment := Segment.set_Position (GetSegmentByPosition.Position opts) segment in
          ((segment, None), db')
      end
  end.

(** SELECT ... FROM segments WHERE stream_id = (subquery) ORDER BY position
    DESC. *)
Definition select_last_segment (db : t) (loc : ObjectLocation.t)
  : list Segment.t :=
  order_by_desc (fun s => SegmentPosition.Encode (Segment.Position s))
                (filter (stream_is (latest_stream_id db loc)) (segments db)).

Definition GetLatestObjectLastSegment (db : t) (opts : GetLatestObjectLastSegment.t)
  : (Segment.t * option error) * t :=
  match GetLatestObjectLastSegment.Verify opts with
  | Some err => ((Segment.zero, Some err), db)
  | None =>
      let db' := sent db in
      match Scan (select_last_segment db (GetLatestObjectLastSegment.Location opts)) with
      | inl err =>
          if Is_ErrNoRows err
          then ((Segment.zero,
                 Some (Wrap ErrObjectNotFound (New Error "object or segment missing"))), db')
          else ((Segment.zero, Some (Newf Error "unable to query segment: %w" err)), db')
      | inr row => ((Segment.Scan_all row Segment.zero, None), db')
      end
  end.

(** SELECT ... FROM segments WHERE stream_id = (subquery) AND
    plain_offset <= $4 AND (plain_size + plain_offset) > $4
    ORDER BY plain_offset ASC. *)
Definition select_segment_by_offset (db : t) (loc : ObjectLocation.t) (offset : Z)
  : list Segment.t :=
  order_by_asc Segment.PlainOffset
    (filter (fun s => stream_is (latest_stream_id db loc) s
                      && (Segment.PlainOffset s <=? offset)
                      && (Segment.PlainSize s + Segment.PlainOffset s >? offset))
            (segments db)).

Definition GetSegmentByOffset (db : t) (opts : GetSegmentByOffset.t)
  : (Segment.t * option error) * t :=
  match GetSegmentByOffset.Verify opts with
  | Some err => ((Segment.zero, Some err), db)
  | None =>
      if GetSegmentByOffset.PlainOffset opts <? 0
      then ((Segment.zero, Some (New ErrInvalidRequest "Invalid PlainOffset: %d")), db)
      else
        let db' := sent db in
        match Scan (select_segment_by_offset db (GetSegmentByOffset.Location opts)
                      (GetSegmentByOffset.PlainOffset opts)) with
        | inl err =>
            if Is_ErrNoRows err
            then ((Segment.zero,
                   Some (Wrap ErrObjectNotFound (New Error "object or segment missing"))), db')
            else ((Segment.zero, Some (Newf Error "unable to query segment: %w" err)), db')
        | inr row => ((Segment.Scan_all row Segment.zero, None), db')
        end
  end.

(** SELECT 1 FROM objects WHERE project_id = $1 AND bucket_name = $2. *)
Definition select_bucket_rows (db : t) (project : UUID) (bucket : string)
  : list Z :=
  map (fun _ => 1)
      (filter (fun o => N.eqb (Object.ProjectID o) project
                        && String.eqb (Object.BucketName o) bucket)
              (objects db)).

Definition BucketEmpty (db : t) (opts : BucketEmpty.t)
  : (bool * option error) * t :=
  if UUID_IsZero (BucketEmpty.ProjectID opts)
  then ((false, Some (New ErrInvalidRequest "ProjectID missing")), db)
  else if String.eqb (BucketEmpty.BucketName opts) ""
  then ((false, Some (New ErrInvalidRequest "BucketName missing")), db)
  else
    let db' := sent db in
    match Scan (select_bucket_rows db (BucketEmpty.ProjectID opts)
                  (BucketEmpty.BucketName opts)) with
    | inl err =>
        if Is_ErrNoRows err
        then ((true, None), db')
        else ((false, Some (Newf Error "unable to query objects: %w" err)), db')
    | inr value => ((false, None), db')
    end.

End DB.

(** A stored segment covers [offset] for [loc]: it belongs to the stream of
    the object [GetObjectLatestVersion] returns for [loc], and [offset] lies
    in its half-open interval [PlainOffset, PlainOffset + PlainSize). *)
Definition covers (db : DB.t) (loc : ObjectLocation.t) (offset : Z)
  (s : Segment.t) : Prop :=
  In s (DB.segments db) /\
  (exists o, fst (DB.GetObjectLatestVersion db (GetObjectLatestVersion.mk loc))
             = (o, None) /\
             Segment.StreamID s = Object.StreamID o) /\
  Segment.PlainOffset s <= offset < Segment.PlainOffset s + Segment.PlainSize s.

End metabase.

(** ** The precommit constraint *)

Module precommit.
Import metabase.

Inductive RetentionMode : Set := NoRetention | Governance | Compliance.

Module Retention.

Record t : Set := mk {
  Mode : RetentionMode;
  RetainUntil : Time
}.

Definition zero : t := mk NoRetention 0.

End Retention.

(** Modelled from the spec: the retention evaluator is declared outside the
    source files.  "delete-protected iff Mode = Compliance and RetainUntil >
    now"; Governance does not block. *)
Definition delete_protected (r : Retention.t) (now : Time) : bool :=
  match Retention.Mode r with
  | Compliance => Retention.RetainUntil r >? now
  | _ => false
  end.

(** Modelled from the spec: the object of the data model, the columns of the
    read path together with its retention. *)
Module Object.

Record t : Set := mk {
  Raw : metabase.Object.t;
  Retention : Retention.t
}.

Definition Location (o : t) : ObjectLocation.t := metabase.Object.Location (Raw o).
Definition Version (o : t) : Version := metabase.Object.Version (Raw o).
Definition StreamID (o : t) : UUID := metabase.Object.StreamID (Raw o).
Definition Status (o : t) : ObjectStatus := metabase.Object.Status (Raw o).
Definition SegmentCount (o : t) : Z := metabase.Object.SegmentCount (Raw o).

End Object.

(** Modelled from the spec: the named variants of automatic deletion, "only
    plain Committed rows vs. also sweeping stale Pending rows at the same
    slot vs. Object-Lock-aware unversioned mode".  The first is the zero
    value of the type. *)
Inductive PrecommitDeleteMode : Set :=
| DefaultUnversionedPrecommitMode
| SweepStalePendingPrecommitMode
| WithObjectLockUnversionedPrecommitMode.

Module PrecommitConstraint.

Record t : Set := mk {
  Location : ObjectLocation.t;
  Versioned : bool;
  DisallowDelete : bool;
  Mode : PrecommitDeleteMode
}.

End PrecommitConstraint.

Module PrecommitConstraintResult.

Record t : Set := mk {
  Deleted : list Object.t;
  DeletedObjectCount : Z;
  DeletedSegmentCount : Z;
  HighestVersion : Version
}.

(** [PrecommitConstraintResult{}]. *)
Definition zero : t := mk [] 0 0 0.

End PrecommitConstraintResult.

(** What the open transaction sees and writes: both tables. *)
Module Tx.

Record t : Set := mk {
  objects : list Object.t;
  segments : list Segment.t
}.

End Tx.

Definition at_location (loc : ObjectLocation.t) (o : Object.t) : bool :=
  DB.at_location loc (Object.Raw o).

(** The maximum version among [objs]; 0 when there is none. *)
Definition highest_version (objs : list Object.t) : Version :=
  fold_right Z.max 0 (map Object.Version objs).

Section Engine.

(** The spec leaves open when a Pending row counts as stale. *)
Variable stale : Time -> Object.t -> bool.

(** The instant the transaction's snapshot evaluates retention at. *)
Variable now : Time.

(** The categories of rows a variant may delete. *)
Definition eligible (mode : PrecommitDeleteMode) (o : Object.t) : bool :=
  match mode with
  | DefaultUnversionedPrecommitMode
  | WithObjectLockUnversionedPrecommitMode => Object.Status o =? Committed
  | SweepStalePendingPrecommitMode =>
      (Object.Status o =? Committed)
      || ((Object.Status o =? Pending) && stale now o)
  end.

Definition is_candidate (loc : ObjectLocation.t) (mode : PrecommitDeleteMode)
  (o : Object.t) : bool :=
  at_location loc o && eligible mode o.

Definition owned_by (objs : list Object.t) (s : Segment.t) : bool :=
  existsb (fun o => N.eqb (Object.StreamID o) (Segment.StreamID s)) objs.

(** Modelled from the spec: rule 3 of the precommit constraint, the
    retention-gated deletion of overwrite semantics.  The candidates are
    checked first; an active Compliance retention aborts with the
    Object-Lock kind and [DisallowDelete] turns a deletion that would
    otherwise occur into a conflict, neither writing anything; otherwise the
    candidates go together with their segments, and [HighestVersion] is
    taken over what remains at the location. *)
Definition delete_unversioned (loc : ObjectLocation.t) (mode : PrecommitDeleteMode)
  (disallowDelete : bool) (tx : Tx.t)
  : (PrecommitConstraintResult.t * option error) * Tx.t :=
  let candidates := filter (is_candidate loc mode) (Tx.objects tx) in
  if existsb (fun o => delete_protected (Object.Retention o) now) candidates
  then ((PrecommitConstraintResult.zero,
         Some (New ErrObjectLock "object is protected by Object Lock settings")), tx)
  else
    match candidates with
    | [] =>
        ((PrecommitConstraintResult.mk [] 0 0
            (highest_version (filter (at_location loc) (Tx.objects tx))), None), tx)
    | _ :: _ =>
        if disallowDelete
        then ((PrecommitConstraintResult.zero,
               Some (New ErrConflict "no permissions to delete existing object")), tx)
        else
          let remaining :=
            filter (fun o => negb (is_candidate loc mode o)) (Tx.objects tx) in
          let tx' :=
            Tx.mk remaining
                  (filter (fun s => negb (owned_by candidates s)) (Tx.segments tx)) in
          ((PrecommitConstraintResult.mk candidates
              (Z.of_nat (List.length candidates))
              (fold_right Z.add 0 (map Object.SegmentCount candidates))
              (highest_version (filter (at_location loc) remaining)), None), tx')
    end.

(** Modelled from the spec: [PrecommitConstraint] is declared outside the
    source files (only its tests are among them).  A versioned commit never
    deletes and reports the maximum version at the location; an unversioned
    one is the retention-gated deletion above. *)
Definition PrecommitConstraint (opts : PrecommitConstraint.t) (tx : Tx.t)
  : (PrecommitConstraintResult.t * option error) * Tx.t :=
  let loc := PrecommitConstraint.Location opts in
  if PrecommitConstraint.Versioned opts
  then ((PrecommitConstraintResult.mk [] 0 0
           (highest_version (filter (at_location loc) (Tx.objects tx))), None), tx)
  else delete_unversioned loc (PrecommitConstraint.Mode opts)
                          (PrecommitConstraint.DisallowDelete opts) tx.

(** Modelled from the spec: [PrecommitDeleteUnversionedWithNonPending] is
    declared outside the source files.  "performs the same retention-gated
    deletion but is invoked independent of the versioned flag"; it sweeps the
    rows that are not Pending. *)
Definition PrecommitDeleteUnversionedWithNonPending (loc : ObjectLocation.t)
  (tx : Tx.t) : (PrecommitConstraintResult.t * option error) * Tx.t :=
  delete_unversioned loc DefaultUnversionedPrecommitMode false tx.

End Engine.

End precommit.

(** ** The coupon repository of the satellite database *)

Module satellitedb.

Definition bytes := list Byte.byte.
Definition Time := Z.

(** [uuid.UUID] of skyring-common: sixteen bytes. *)
Definition UUID := list Byte.byte.

Definition UUID_zero : UUID := repeat Byte.x00 16.

(** Errors of this package carry no class.  [combined] is the group
    [errs.Combine] builds from two or more errors. *)
#[warnings="-register-all"] Inductive error : Set :=
| errs_New (msg : string)
| combined (group : list error).

(** [errs.Combine(errors...)]: nil for no error, the error itself for one,
    the group otherwise. *)
Definition errs_Combine (errors : list error) : option error :=
  match errors with
  | [] => None
  | [e] => Some e
  | _ => Some (combined errors)
  end.

(** Go's [int] and [int64] addition, two's complement on 64 bits. *)
Definition wrap64 (z : Z) : Z :=
  (z + 2 ^ 63) mod 2 ^ 64 - 2 ^ 63.

Definition add64 (a b : Z) : Z := wrap64 (a + b).

(** [dbx.Coupon]: a row of the [coupons] table as the generated layer
    returns it. *)
Module dbx_Coupon.

Record t : Set := mk {
  Id : bytes;
  ProjectId : bytes;
  UserId : bytes;
  Amount : Z;
  Description : string;
  Type_ : Z;
  Status : Z;
  Duration : Z;
  CreatedAt : Time
}.

End dbx_Coupon.

(** [payments.Coupon]. *)
Module Coupon.

Record t : Set := mk {
  ID : UUID;
  UserID : UUID;
  ProjectID : UUID;
  Amount : Z;
  Duration : Z;
  Description : string;
  Type_ : Z;
  Status : Z;
  Created : Time
}.

(** [payments.Coupon{}]. *)
Definition zero : t := mk UUID_zero UUID_zero UUID_zero 0 0 "" 0 0 0.

End Coupon.

(** [payments.CouponsPage]. *)
Module CouponsPage.

Record t : Set := mk {
  Coupons : list Coupon.t;
  Next : bool;
  NextOffset : Z
}.

(** [payments.CouponsPage{}]. *)
Definition zero : t := mk [] false 0.

End CouponsPage.

(** The generated query layer behind [coupons.db], as far as [ListPaged]
    uses it: the rows created at or before an instant, with a given status,
    newest first, cut by limit and offset. *)
Module satelliteDB.

Record t : Type := mk {
  Limited_Coupon_By_CreatedAt_LessOrEqual_And_Status_OrderBy_Desc_CreatedAt :
    Time -> Z -> Z -> Z -> list dbx_Coupon.t * option error
}.

End satelliteDB.

Section Coupons.

(** [dbutil.BytesToUUID] and [coinpayments.StatusPending.Int()] are declared
    outside the source files. *)
Variable BytesToUUID : bytes -> UUID * option error.
Variable StatusPending : Z.

(** fromDBXCoupon converts *dbx.Coupon to *payments.Coupon. *)
Definition fromDBXCoupon (dbxCoupon : dbx_Coupon.t) : Coupon.t * option error :=
  match BytesToUUID (dbx_Coupon.UserId dbxCoupon) with
  | (_, Some err) => (Coupon.zero, Some err)
  | (userID, None) =>
  match BytesToUUID (dbx_Coupon.ProjectId dbxCoupon) with
  | (_, Some err) => (Coupon.zero, Some err)
  | (projectID, None) =>
  match BytesToUUID (dbx_Coupon.Id dbxCoupon) with
  | (_, Some err) => (Coupon.zero, Some err)
  | (id, None) =>
      (Coupon.mk id userID projectID
         (dbx_Coupon.Amount dbxCoupon)
         (dbx_Coupon.Duration dbxCoupon)
         (dbx_Coupon.Description dbxCoupon)
         0
         (dbx_Coupon.Status dbxCoupon)
         (dbx_Coupon.CreatedAt dbxCoupon), None)
  end end end.

(** The rows that fail to convert. *)
Definition failing (rows : list dbx_Coupon.t) : list dbx_Coupon.t :=
  filter (fun r => match snd (fromDBXCoupon r) with
                   | Some _ => true
                   | None => false
                   end) rows.

(** The loop of [couponsFromDbxSlice]: a row that fails to convert adds its
    error to [errors] and is skipped, any other adds its coupon. *)
Fixpoint couponsFromDbxSlice_loop (couponsDbx : list dbx_Coupon.t)
  (coupons : list Coupon.t) (errors : list error)
  : list Coupon.t * list error :=
  match couponsDbx with
  | [] => (coupons, errors)
  | couponDbx :: rest =>
      match fromDBXCoupon couponDbx with
      | (_, Some err) => couponsFromDbxSlice_loop rest coupons (errors ++ [err])
      | (coupon, None) => couponsFromDbxSlice_loop rest (coupons ++ [coupon]) errors
      end
  end.

(** couponsFromDbxSlice is used for creating []payments.Coupon entities from
    autogenerated []dbx.Coupon struct. *)
Definition couponsFromDbxSlice (couponsDbx : list dbx_Coupon.t)
  : list Coupon.t * option error :=
  let '(coupons, errors) := couponsFromDbxSlice_loop couponsDbx [] [] in
  (coupons, errs_Combine errors).

(** ListPaged returns a page of coupons.  The [status] argument is not used:
    the query is always made with [StatusPending]. *)
Definition ListPaged (db : satelliteDB.t) (offset : Z) (limit : Z)
  (before : Time) (status : Z) : CouponsPage.t * option error :=
  let page := CouponsPage.zero in
  match satelliteDB.Limited_Coupon_By_CreatedAt_LessOrEqual_And_Status_OrderBy_Desc_CreatedAt
          db before StatusPending (add64 limit 1) offset with
  | (_, Some err) => (CouponsPage.zero, Some err)
  | (dbxCoupons, None) =>
      let '(page, dbxCoupons) :=
        if Z.of_nat (List.length dbxCoupons) =? add64 limit 1
        then (CouponsPage.mk (CouponsPage.Coupons page) true
                (add64 (add64 offset limit) 1),
              removelast dbxCoupons)
        else (page, dbxCoupons) in
      match couponsFromDbxSlice dbxCoupons with
      | (_, Some err) => (CouponsPage.zero, None)
      | (coupons, None) =>
          (CouponsPage.mk coupons (CouponsPage.Next page)
             (CouponsPage.NextOffset page), None)
      end
  end.

(** The sibling listing [ListByUserID] (as [ListByUserIDAndStatus], [List]
    and [ListByProjectID]): the rows of the query go through
    [couponsFromDbxSlice] and its error is returned as it is. *)
Definition ListByUserID (rows : list dbx_Coupon.t * option error)
  : list Coupon.t * option error :=
  match rows with
  | (_, Some err) => ([], Some err)
  | (dbxCoupons, None) => couponsFromDbxSlice dbxCoupons
  end.

End Coupons.

(** A conversion for concrete runs: sixteen bytes are a UUID, anything else
    is refused. *)
Definition BytesToUUID_16 (data : bytes) : UUID * option error :=
  if (List.length data =? 16)%nat then (data, None)
  else (UUID_zero, Some (errs_New "Invalid uuid")).

End satellitedb.

(** ** Concrete tables for runs of the code *)

Module samples.
Import metabase.

Definition loc : ObjectLocation.t := ObjectLocation.mk 7%N "bucket" "key".

Definition row (v : Version) (status : ObjectStatus) (stream : UUID) : Object.t :=
  Object.mk 7%N "bucket" "key" v stream 1000 None status 3 [] [] [] 300 100
            (EncryptionParameters.mk 1 256).

Definition seg (stream : UUID) (index offset size : Z) : Segment.t :=
  Segment.mk stream (SegmentPosition.mk 0 index) [] [] [] size offset size
             RedundancyScheme.zero [] [].

(** Two Committed versions and a newer Pending one at [loc]; the segments of
    the second version split 300 bytes in three. *)
Definition db : DB.t :=
  DB.mk [row 1 Committed 11%N; row 3 Pending 13%N; row 2 Committed 12%N]
        [seg 11%N 0 0 50; seg 12%N 0 0 100; seg 12%N 1 100 100; seg 12%N 2 200 100]
        0.

(** Only a Pending object at [loc]. *)
Definition db_pending : DB.t := DB.mk [row 3 Pending 13%N] [] 0.

(** A location whose project ID is the zero UUID. *)
Definition loc_no_project : ObjectLocation.t := ObjectLocation.mk 0%N "bucket" "key".

Definition locked (until : Time) : precommit.Object.t :=
  precommit.Object.mk (row 1 Committed 11%N)
                      (precommit.Retention.mk precommit.Compliance until).

Definition pending : precommit.Object.t :=
  precommit.Object.mk (row 2 Pending 11%N) precommit.Retention.zero.

(** An object under another key. *)
Definition elsewhere : precommit.Object.t :=
  precommit.Object.mk
    (Object.mk 7%N "bucket" "other" 1 21%N 1000 None Committed 0 [] [] [] 0 0
               EncryptionParameters.zero)
    precommit.Retention.zero.

Definition three_segments : list Segment.t :=
  [seg 11%N 0 0 100; seg 11%N 1 100 100; seg 11%N 2 200 100].

Definition never_stale (now : Time) (o : precommit.Object.t) : bool := false.

Definition sixteen : satellitedb.bytes := repeat Byte.x01 16.

Definition coupon_row (user : satellitedb.bytes) : satellitedb.dbx_Coupon.t :=
  satellitedb.dbx_Coupon.mk sixteen sixteen user 500 "promo" 0 0 2 1000.

(** A coupons table with one pending row whose user id holds fifteen bytes:
    the query succeeds and returns the row. *)
Definition coupons_with_bad_row : satellitedb.satelliteDB.t :=
  satellitedb.satelliteDB.mk
    (fun before status limit offset =>
       ([coupon_row sixteen; coupon_row (repeat Byte.x01 15)], None)).

End samples.

(** ** Coupon usages and the argument list of the satellite database *)

Module coupon_usages.
Import satellitedb.

(** [dbx.CouponUsage]: a row of the [coupon_usages] table. *)
Module dbx_CouponUsage.

Record t : Set := mk {
  CouponId : bytes;
  Amount : Z;
  Status : Z;
  Period : Time
}.

End dbx_CouponUsage.

(** [stripecoinpayments.CouponUsage]. *)
Module CouponUsage.

Record t : Set := mk {
  CouponID : UUID;
  Amount : Z;
  Status : Z;
  Period : Time
}.

(** [stripecoinpayments.CouponUsage{}]. *)
Definition zero : t := mk UUID_zero 0 0 0.

End CouponUsage.

(** [stripecoinpayments.CouponUsagePage]. *)
Module CouponUsagePage.

Record t : Set := mk {
  Usages : list CouponUsage.t;
  Next : bool;
  NextOffset : Z
}.

(** [stripecoinpayments.CouponUsagePage{}]. *)
Definition zero : t := mk [] false 0.

End CouponUsagePage.

(** The generated query behind [ListUnapplied]: the usages of a period at or
    before an instant, in the unapplied status, newest first, cut by limit
    and offset. *)
Module usagesDB.

Record t : Type := mk {
  Limited_CouponUsage_By_Period_LessOrEqual_And_Status_Equal_Number_OrderBy_Desc_Period :
    Time -> Z -> Z -> list dbx_CouponUsage.t * option error
}.

End usagesDB.

Section Usages.

Variable BytesToUUID : bytes -> UUID * option error.

(** couponUsageFromDbxSlice is used for creating
    stripecoinpayments.CouponUsage entity from autogenerated dbx.CouponUsage
    struct. *)
Definition couponUsageFromDbxSlice (couponUsageDbx : dbx_CouponUsage.t)
  : CouponUsage.t * option error :=
  match BytesToUUID (dbx_CouponUsage.CouponId couponUsageDbx) with
  | (_, Some err) => (CouponUsage.zero, Some err)
  | (couponID, None) =>
      (CouponUsage.mk couponID
         (dbx_CouponUsage.Amount couponUsageDbx)
         (dbx_CouponUsage.Status couponUsageDbx)
         (dbx_CouponUsage.Period couponUsageDbx), None)
  end.

(** The loop of [ListUnapplied] over the records: the first record that
    fails to convert ends the call with its error, any other is appended to
    the usages of the page. *)
Fixpoint ListUnapplied_loop (dbxRecords : list dbx_CouponUsage.t)
  (usages : list CouponUsage.t) : list CouponUsage.t * option error :=
  match dbxRecords with
  | [] => (usages, None)
  | dbxRecord :: rest =>
      match couponUsageFromDbxSlice dbxRecord with
      | (_, Some err) => ([], Some err)
      | (record, None) => ListUnapplied_loop rest (usages ++ [record])
      end
  end.

(** ListUnapplied returns coupon usage page with unapplied coupon usages. *)
Definition ListUnapplied (db : usagesDB.t) (offset : Z) (limit : Z)
  (before : Time) : CouponUsagePage.t * option error :=
  let page := CouponUsagePage.zero in
  match usagesDB.Limited_CouponUsage_By_Period_LessOrEqual_And_Status_Equal_Number_OrderBy_Desc_Period
          db before (add64 limit 1) offset with
  | (_, Some err) => (CouponUsagePage.zero, Some err)
  | (dbxRecords, None) =>
      let '(page, dbxRecords) :=
        if Z.of_nat (List.length dbxRecords) =? add64 limit 1
        then (CouponUsagePage.mk (CouponUsagePage.Usages page) true
                (add64 (add64 offset limit) 1),
              removelast dbxRecords)
        else (page, dbxRecords) in
      match ListUnapplied_loop dbxRecords (CouponUsagePage.Usages page) with
      | (_, Some err) => (CouponUsagePage.zero, Some err)
      | (usages, None) =>
          (CouponUsagePage.mk usages (CouponUsagePage.Next page)
             (CouponUsagePage.NextOffset page), None)
      end
  end.

End Usages.

(** [for i := 1; i < length; i++ { middle += ", ?" }]. *)
Fixpoint middle_loop (iterations : nat) (middle : string) : string :=
  match iterations with
  | O => middle
  | S n => middle_loop n (middle ++ ", ?")
  end.

(** generates variadic number of '?' symbols in brackets depends on input
    parameter. *)
Definition generateArgumentsDBX (length : Z) : string :=
  let start := "(" in
  let start := if length >=? 1 then start ++ "?" else start in
  let middle := middle_loop (Z.to_nat (length - 1)) "" in
  let end_ := ")" in
  start ++ middle ++ end_.

(** The number of '?' in a string. *)
Fixpoint placeholders (s : string) : nat :=
  match s with
  | EmptyString => O
  | String c rest =>
      if Ascii.eqb c "?"%char then S (placeholders rest) else placeholders rest
  end.

(** Errors of the raw queries on [coupon_usages]: the sentinel of
    [database/sql], any other failure of the driver, and
    [ErrNoCouponUsages.Wrap(e)]. *)
Inductive usage_error : Set :=
| sql_ErrNoRows
| sql_failure (msg : string)
| ErrNoCouponUsages_Wrap (e : usage_error).

Fixpoint bytes_eqb (a b : bytes) : bool :=
  match a, b with
  | [], [] => true
  | x :: a', y :: b' => Byte.eqb x y && bytes_eqb a' b'
  | _, _ => false
  end.

(** WHERE coupon_id = ?. *)
Definition of_coupon (couponID : UUID) (usages : list dbx_CouponUsage.t)
  : list dbx_CouponUsage.t :=
  filter (fun u => bytes_eqb (dbx_CouponUsage.CouponId u) couponID) usages.

(** TotalUsage gets sum of all usage records for specified coupon:
    SELECT COALESCE(SUM(amount), 0) FROM coupon_usages WHERE coupon_id = ?.
    The aggregate always yields one row. *)
Definition TotalUsage (usages : list dbx_CouponUsage.t) (couponID : UUID)
  : Z * option usage_error :=
  (fold_right Z.add 0 (map dbx_CouponUsage.Amount (of_coupon couponID usages)),
   None).

(** TotalUsageForPeriod runs the same query: [period] is not among its
    arguments. *)
Definition TotalUsageForPeriod (usages : list dbx_CouponUsage.t)
  (couponID : UUID) (period : Time) : Z * option usage_error :=
  (fold_right Z.add 0 (map dbx_CouponUsage.Amount (of_coupon couponID usages)),
   None).

(** [amountRow.Scan(&created)] after SELECT period FROM coupon_usages WHERE
    coupon_id = ? ORDER BY period DESC LIMIT 1: the scanned period, or the
    zero time and [sql.ErrNoRows]. *)
Definition Scan_latest_period (usages : list dbx_CouponUsage.t) (couponID : UUID)
  : Time * option usage_error :=
  match limit_1 (order_by_desc dbx_CouponUsage.Period (of_coupon couponID usages)) with
  | Some u => (dbx_CouponUsage.Period u, None)
  | None => (0, Some sql_ErrNoRows)
  end.

(** GetLatest return period_end of latest coupon charge. *)
Definition GetLatest (usages : list dbx_CouponUsage.t) (couponID : UUID)
  : Time * option usage_error :=
  match Scan_latest_period usages couponID with
  | (created, Some sql_ErrNoRows) =>
      (created, Some (ErrNoCouponUsages_Wrap sql_ErrNoRows))
  | (created, err) => (created, err)
  end.

End coupon_usages.

(** ** Predicates on the tables of the metabase *)

Module tables.
Import metabase.

(** A stored segment of the stream of the object [GetObjectLatestVersion]
    returns for [loc]. *)
Definition in_latest_stream (db : DB.t) (loc : ObjectLocation.t)
  (s : Segment.t) : Prop :=
  In s (DB.segments db) /\
  exists o, fst (DB.GetObjectLatestVersion db (GetObjectLatestVersion.mk loc))
            = (o, None) /\
            Segment.StreamID s = Object.StreamID o.

(** The primary key of [objects]: location and version name one row. *)
Definition objects_key (db : DB.t) : Prop :=
  forall o1 o2, In o1 (DB.objects db) -> In o2 (DB.objects db) ->
                Object.Location o1 = Object.Location o2 ->
                Object.Version o1 = Object.Version o2 -> o1 = o2.

(** The primary key of [segments]: stream and encoded position name one
    row. *)
Definition segments_key (db : DB.t) : Prop :=
  forall s1 s2, In s1 (DB.segments db) -> In s2 (DB.segments db) ->
                Segment.StreamID s1 = Segment.StreamID s2 ->
                SegmentPosition.Encode (Segment.Position s1) =
                SegmentPosition.Encode (Segment.Position s2) -> s1 = s2.

(** The plain intervals of two different segments of one stream do not
    meet. *)
Definition segments_disjoint (db : DB.t) : Prop :=
  forall s1 s2, In s1 (DB.segments db) -> In s2 (DB.segments db) ->
                Segment.StreamID s1 = Segment.StreamID s2 ->
                Segment.PlainOffset s1 < Segment.PlainOffset s2 + Segment.PlainSize s2 ->
                Segment.PlainOffset s2 < Segment.PlainOffset s1 + Segment.PlainSize s1 ->
                s1 = s2.

End tables.

(** ** What a list of rows converts to *)

Module conversions.
Import satellitedb.

Section Converted.

Variable BytesToUUID : bytes -> UUID * option error.

(** The coupons of the rows that convert, in the order of the rows. *)
Definition converted (rows : list dbx_Coupon.t) : list Coupon.t :=
  flat_map (fun r => match fromDBXCoupon BytesToUUID r with
                     | (c, None) => [c]
                     | (_, Some _) => []
                     end) rows.

(** The errors of the rows that do not convert, in the order of the rows. *)
Definition conversion_errors (rows : list dbx_Coupon.t) : list error :=
  flat_map (fun r => match fromDBXCoupon BytesToUUID r with
                     | (_, None) => []
                     | (_, Some e) => [e]
                     end) rows.

End Converted.

(** LIMIT [limit] OFFSET [offset] over an ordered result. *)
Definition window {A : Type} (result : list A) (limit offset : Z) : list A :=
  firstn (Z.to_nat limit) (skipn (Z.to_nat offset) result).

End conversions.

(** ** More concrete tables *)

Module samples_more.
Import satellitedb coupon_usages.

Definition usage (coupon : bytes) (amount : Z) (period : Time) : dbx_CouponUsage.t :=
  dbx_CouponUsage.mk coupon amount 0 period.

Definition other : bytes := repeat Byte.x02 16.

Definition usages : list dbx_CouponUsage.t :=
  [usage samples.sixteen 30 100; usage other 7 300; usage samples.sixteen 12 200].

(** A query that cuts a fixed list of rows by limit and offset. *)
Definition cut {A : Type} (rows : list A) (limit offset : Z) : list A :=
  firstn (Z.to_nat limit) (skipn (Z.to_nat offset) rows).

Definition five_coupons : list dbx_Coupon.t :=
  [dbx_Coupon.mk samples.sixteen samples.sixteen samples.sixteen 1 "a" 0 0 2 50;
   dbx_Coupon.mk samples.sixteen samples.sixteen samples.sixteen 2 "b" 0 0 2 40;
   dbx_Coupon.mk samples.sixteen samples.sixteen samples.sixteen 3 "c" 0 0 2 30;
   dbx_Coupon.mk samples.sixteen samples.sixteen samples.sixteen 4 "d" 0 0 2 20;
   dbx_Coupon.mk samples.sixteen samples.sixteen samples.sixteen 5 "e" 0 0 2 10].

Definition coupons_db : satelliteDB.t :=
  satelliteDB.mk (fun before status limit offset =>
                    (cut five_coupons limit offset, None)).

Definition usages_with_bad_row : usagesDB.t :=
  usagesDB.mk (fun before limit offset =>
                 ([usage samples.sixteen 30 100;
                   usage (repeat Byte.x01 15) 7 300;
                   usage (repeat Byte.x01 3) 12 200], None)).

(** Segments stored, and no object. *)
Definition db_no_objects : metabase.DB.t :=
  metabase.DB.mk [] [samples.seg 12%N 0 0 100] 0.

Definition usages_db : usagesDB.t :=
  usagesDB.mk (fun before limit offset => (cut usages limit offset, None)).

End samples_more.

(** * Properties *)

(** ** ORDER BY and LIMIT 1 *)

Section OrderByFacts.
Context {A : Type}.
Variable key : A -> Z.

Lemma In_insert_asc (x y : A) (l : list A) :
  In y (insert_asc key x l) <-> y = x \/ In y l.
Proof.
  induction l as [|z l IH]; simpl.
  - intuition.
  - destruct (key z <? key x); simpl; rewrite ?IH; intuition.
Qed.

Lemma In_order_by_asc (y : A) (l : list A) :
  In y (order_by_asc key l) <-> In y l.
Proof.
  induction l as [|x l IH]; simpl.
  - tauto.
  - rewrite In_insert_asc, IH. intuition.
Qed.

Lemma insert_asc_sorted (x : A) (l : list A) :
  StronglySorted (fun a b => key a <= key b) l ->
  StronglySorted (fun a b => key a <= key b) (insert_asc key x l).
Proof.
  induction 1 as [|z l Hs IH Hz]; simpl.
  - constructor; constructor.
  - destruct (key z <? key x) eqn:E.
    + apply Z.ltb_lt in E. constructor; [exact IH|].
      apply Forall_forall. intros y Hy. apply In_insert_asc in Hy.
      destruct Hy as [->|Hy]; [lia|].
      rewrite Forall_forall in Hz. auto.
    + apply Z.ltb_ge in E. constructor.
      * constructor; assumption.
      * constructor; [exact E|].
        rewrite Forall_forall in Hz. apply Forall_forall.
        intros y Hy. specialize (Hz y Hy). lia.
Qed.

Lemma order_by_asc_sorted (l : list A) :
  StronglySorted (fun a b => key a <= key b) (order_by_asc key l).
Proof.
  induction l as [|x l IH]; simpl.
  - constructor.
  - apply insert_asc_sorted, IH.
Qed.

(** The first row of an ascending order is a row of the input with the
    least key. *)
Lemma limit_1_order_by_asc (l : list A) (r : A) :
  limit_1 (order_by_asc key l) = Some r ->
  In r l /\ forall x, In x l -> key r <= key x.
Proof.
  intros H. pose proof (order_by_asc_sorted l) as Hs.
  destruct (order_by_asc key l) as [|r' rest] eqn:E; [discriminate|].
  simpl in H. injection H as ->.
  split.
  - apply In_order_by_asc. rewrite E. left; reflexivity.
  - intros x Hx. apply In_order_by_asc in Hx. rewrite E in Hx.
    inversion Hs as [|? ? _ Hall]; subst.
    destruct Hx as [->|Hx]; [lia|].
    rewrite Forall_forall in Hall. auto.
Qed.

Lemma limit_1_order_by_asc_None (l : list A) :
  limit_1 (order_by_asc key l) = None <-> l = [].
Proof.
  split.
  - intros H. destruct l as [|x l]; [reflexivity|].
    assert (Hin : In x (order_by_asc key (x :: l)))
      by (apply In_order_by_asc; left; reflexivity).
    destruct (order_by_asc key (x :: l)); [destruct Hin | discriminate].
  - intros ->. reflexivity.
Qed.

End OrderByFacts.

Lemma limit_1_order_by_desc {A : Type} (key : A -> Z) (l : list A) (r : A) :
  limit_1 (order_by_desc key l) = Some r ->
  In r l /\ forall x, In x l -> key x <= key r.
Proof.
  intros H. apply limit_1_order_by_asc in H. destruct H as [Hin Hmax].
  split; [exact Hin|]. intros x Hx. specialize (Hmax x Hx). simpl in Hmax. lia.
Qed.

Lemma limit_1_order_by_desc_None {A : Type} (key : A -> Z) (l : list A) :
  limit_1 (order_by_desc key l) = None <-> l = [].
Proof. apply limit_1_order_by_asc_None. Qed.

Lemma limit_1_filter_None {A : Type} (f : A -> bool) (l : list A) :
  limit_1 (filter f l) = None <-> forall x, In x l -> f x = false.
Proof.
  split.
  - intros H x Hx. destruct (f x) eqn:E; [|reflexivity].
    assert (Hin : In x (filter f l)) by (apply filter_In; auto).
    destruct (filter f l); [destruct Hin | discriminate].
  - intros H. destruct (filter f l) as [|y rest] eqn:E; [reflexivity|].
    assert (Hin : In y (filter f l)) by (rewrite E; left; reflexivity).
    apply filter_In in Hin. destruct Hin as [Hy Hf].
    rewrite (H y Hy) in Hf. discriminate.
Qed.

Lemma limit_1_filter_Some {A : Type} (f : A -> bool) (l : list A) (r : A) :
  limit_1 (filter f l) = Some r -> In r l /\ f r = true.
Proof.
  intros H. destruct (filter f l) as [|y rest] eqn:E; [discriminate|].
  simpl in H. injection H as ->. apply filter_In. rewrite E. left; reflexivity.
Qed.

(** ** The read path *)

Section ReadPath.
Import metabase.

Lemma Verify_location_None (loc : ObjectLocation.t) :
  ObjectLocation.Verify loc = None <->
  ObjectLocation.ProjectID loc <> 0%N /\
  ObjectLocation.BucketName loc <> "" /\
  ObjectLocation.ObjectKey loc <> "".
Proof.
  unfold ObjectLocation.Verify, UUID_IsZero.
  destruct (N.eqb_spec (ObjectLocation.ProjectID loc) 0) as [Hp|Hp].
  { split; [discriminate | tauto]. }
  destruct (String.eqb_spec (ObjectLocation.BucketName loc) "") as [Hb|Hb].
  { split; [discriminate | tauto]. }
  destruct (ObjectLocation.ObjectKey loc) as [|c k]; simpl.
  - split; [discriminate | tauto].
  - split; [intros _ | reflexivity]. repeat split; auto; discriminate.
Qed.

Lemma Verify_location_Some (loc : ObjectLocation.t) (e : error) :
  ObjectLocation.Verify loc = Some e -> Has ErrInvalidRequest e = true.
Proof.
  unfold ObjectLocation.Verify.
  destruct (UUID_IsZero _); [intros [= <-]; reflexivity|].
  destruct (String.eqb _ _); [intros [= <-]; reflexivity|].
  destruct (Nat.eqb _ _); [intros [= <-]; reflexivity | discriminate].
Qed.

Lemma Verify_location_empty (loc : ObjectLocation.t) :
  ObjectLocation.ProjectID loc = 0%N \/
  ObjectLocation.BucketName loc = "" \/
  ObjectLocation.ObjectKey loc = "" ->
  exists e, ObjectLocation.Verify loc = Some e /\ Has ErrInvalidRequest e = true.
Proof.
  intros H. destruct (ObjectLocation.Verify loc) as [e|] eqn:E.
  - exists e. split; [reflexivity|]. eapply Verify_location_Some; eassumption.
  - apply Verify_location_None in E. tauto.
Qed.

Lemma at_location_iff (loc : ObjectLocation.t) (o : Object.t) :
  DB.at_location loc o = true <-> Object.Location o = loc.
Proof.
  unfold DB.at_location, Object.Location. destruct loc as [p b k]; simpl.
  rewrite !andb_true_iff, N.eqb_eq, !String.eqb_eq.
  split.
  - intros [[-> ->] ->]. reflexivity.
  - intros [= -> -> ->]. auto.
Qed.

Lemma committed_at_iff (loc : ObjectLocation.t) (o : Object.t) :
  DB.committed_at loc o = true <->
  Object.Location o = loc /\ Object.Status o = Committed.
Proof.
  unfold DB.committed_at, committedStatus.
  rewrite andb_true_iff, at_location_iff, Z.eqb_eq. tauto.
Qed.

Lemma Scan_limit_1 {A : Type} (rows : list A) :
  DB.Scan rows = match limit_1 rows with
                 | Some r => inr r
                 | None => inl sql_ErrNoRows
                 end.
Proof. reflexivity. Qed.

(** A row read back through the exact-version query is the stored row. *)
Lemma exact_roundtrip (loc : ObjectLocation.t) (v : Version) (row : Object.t) :
  Object.Location row = loc -> Object.Version row = v ->
  Object.Status row = Committed ->
  Object.set_Status Committed
    (Object.set_Version v
      (Object.set_ObjectKey (ObjectLocation.ObjectKey loc)
        (Object.set_BucketName (ObjectLocation.BucketName loc)
          (Object.set_ProjectID (ObjectLocation.ProjectID loc)
            (Object.Scan_exact row Object.zero))))) = row.
Proof.
  destruct row; unfold Object.Location; simpl.
  intros <- <- ->. reflexivity.
Qed.

Lemma latest_roundtrip (loc : ObjectLocation.t) (row : Object.t) :
  Object.Location row = loc -> Object.Status row = Committed ->
  Object.set_Status Committed
    (Object.set_ObjectKey (ObjectLocation.ObjectKey loc)
      (Object.set_BucketName (ObjectLocation.BucketName loc)
        (Object.set_ProjectID (ObjectLocation.ProjectID loc)
          (Object.Scan_latest row Object.zero)))) = row.
Proof.
  destruct row; unfold Object.Location; simpl.
  intros <- ->. reflexivity.
Qed.

(** *** GetObjectExactVersion *)

Lemma exact_Verify_None (opts : GetObjectExactVersion.t) :
  GetObjectExactVersion.Verify opts = None <->
  ObjectLocation.Verify (GetObjectExactVersion.Location opts) = None /\
  0 < GetObjectExactVersion.Version opts.
Proof.
  unfold GetObjectExactVersion.Verify.
  destruct (ObjectLocation.Verify _) as [e|].
  - split; [discriminate | intros [H _]; discriminate].
  - destruct (Z.leb_spec (GetObjectExactVersion.Version opts) 0).
    + split; [discriminate | intros [_ H']; lia].
    + split; auto.
Qed.

Lemma exact_Verify_Some (opts : GetObjectExactVersion.t) (e : error) :
  GetObjectExactVersion.Verify opts = Some e -> Has ErrInvalidRequest e = true.
Proof.
  unfold GetObjectExactVersion.Verify.
  destruct (ObjectLocation.Verify _) as [e'|] eqn:E.
  - intros [= <-]. eapply Verify_location_Some; eassumption.
  - destruct (_ <=? 0); [intros [= <-]; reflexivity | discriminate].
Qed.

Lemma select_exact_version_In (db : DB.t) (loc : ObjectLocation.t)
  (v : Version) (o : Object.t) :
  In o (DB.select_exact_version db loc v) <->
  In o (DB.objects db) /\ Object.Location o = loc /\
  Object.Version o = v /\ Object.Status o = Committed.
Proof.
  unfold DB.select_exact_version, committedStatus.
  rewrite filter_In, !andb_true_iff, at_location_iff, !Z.eqb_eq. tauto.
Qed.

(** C5.  [GetObjectExactVersion] refuses a request whose version is not
    positive or whose location has an empty field with InvalidRequest and
    sends no query; for any other request it returns a stored Committed row
    at exactly the requested location and version when there is one, and
    fails with ObjectNotFound when no stored row has that location and
    version or the ones that have are not Committed. *)
Theorem GetObjectExactVersion_spec (db : DB.t) (opts : GetObjectExactVersion.t) :
  ((GetObjectExactVersion.Version opts <= 0 \/
    ObjectLocation.ProjectID (GetObjectExactVersion.Location opts) = 0%N \/
    ObjectLocation.BucketName (GetObjectExactVersion.Location opts) = "" \/
    ObjectLocation.ObjectKey (GetObjectExactVersion.Location opts) = "") ->
   exists e, DB.GetObjectExactVersion db opts = ((Object.zero, Some e), db) /\
             Has ErrInvalidRequest e = true)
  /\
  (0 < GetObjectExactVersion.Version opts ->
   ObjectLocation.ProjectID (GetObjectExactVersion.Location opts) <> 0%N ->
   ObjectLocation.BucketName (GetObjectExactVersion.Location opts) <> "" ->
   ObjectLocation.ObjectKey (GetObjectExactVersion.Location opts) <> "" ->
   ((exists o, In o (DB.objects db) /\
               Object.Location o = GetObjectExactVersion.Location opts /\
               Object.Version o = GetObjectExactVersion.Version opts /\
               Object.Status o = Committed) ->
    exists o, In o (DB.objects db) /\
              Object.Location o = GetObjectExactVersion.Location opts /\
              Object.Version o = GetObjectExactVersion.Version opts /\
              Object.Status o = Committed /\
              DB.GetObjectExactVersion db opts = ((o, None), DB.sent db))
   /\
   ((forall o, In o (DB.objects db) ->
               Object.Location o = GetObjectExactVersion.Location opts ->
               Object.Version o <> GetObjectExactVersion.Version opts \/
               Object.Status o <> Committed) ->
    exists e, DB.GetObjectExactVersion db opts = ((Object.zero, Some e), DB.sent db) /\
              Has ErrObjectNotFound e = true)).
Proof.
  split.
  - intros Hbad. unfold DB.GetObjectExactVersion.
    destruct (GetObjectExactVersion.Verify opts) as [e|] eqn:E.
    + exists e. split; [reflexivity|]. eapply exact_Verify_Some; eassumption.
    + apply exact_Verify_None in E. destruct E as [E Hv].
      apply Verify_location_None in E. exfalso.
      destruct Hbad as [H|[H|[H|H]]]; [lia | tauto | tauto | tauto].
  - intros Hv Hp Hb Hk.
    assert (Hok : GetObjectExactVersion.Verify opts = None).
    { apply exact_Verify_None. split; [|exact Hv].
      apply Verify_location_None. auto. }
    unfold DB.GetObjectExactVersion. rewrite Hok, Scan_limit_1.
    set (loc := GetObjectExactVersion.Location opts).
    set (v := GetObjectExactVersion.Version opts).
    destruct (limit_1 (DB.select_exact_version db loc v)) as [row|] eqn:E.
    + assert (Hrow : In row (DB.select_exact_version db loc v)).
      { destruct (DB.select_exact_version db loc v); [discriminate|].
        injection E as ->. left; reflexivity. }
      apply select_exact_version_In in Hrow.
      destruct Hrow as (Hin & Hloc & Hver & Hst).
      split.
      * intros _. exists row. repeat split; auto.
        cbv zeta. rewrite exact_roundtrip by assumption. reflexivity.
      * intros Hnone. exfalso.
        destruct (Hnone row Hin Hloc) as [H|H]; contradiction.
    + assert (Hnil : DB.select_exact_version db loc v = [])
        by (destruct (DB.select_exact_version db loc v); [reflexivity | discriminate]).
      split.
      * intros (o & Hin & Hloc & Hver & Hst). exfalso.
        assert (Ho : In o (DB.select_exact_version db loc v))
          by (apply select_exact_version_In; auto).
        rewrite Hnil in Ho. destruct Ho.
      * intros _. simpl. eexists. split; reflexivity.
Qed.

(** C10.  Whenever [GetObjectExactVersion] succeeds, the object it returns
    carries the project, bucket, key and version of the request, and its
    status is Committed. *)
Theorem GetObjectExactVersion_identity (db db' : DB.t)
  (opts : GetObjectExactVersion.t) (object : Object.t) :
  DB.GetObjectExactVersion db opts = ((object, None), db') ->
  Object.ProjectID object = ObjectLocation.ProjectID (GetObjectExactVersion.Location opts) /\
  Object.BucketName object = ObjectLocation.BucketName (GetObjectExactVersion.Location opts) /\
  Object.ObjectKey object = ObjectLocation.ObjectKey (GetObjectExactVersion.Location opts) /\
  Object.Version object = GetObjectExactVersion.Version opts /\
  Object.Status object = Committed.
Proof.
  unfold DB.GetObjectExactVersion.
  destruct (GetObjectExactVersion.Verify opts); [discriminate|].
  destruct (DB.Scan _) as [err|row].
  - destruct (Is_ErrNoRows err); discriminate.
  - cbv zeta. intros [= <- _]. repeat split.
Qed.

(** *** GetObjectLatestVersion *)

Lemma select_latest_version_In (db : DB.t) (loc : ObjectLocation.t) (o : Object.t) :
  In o (filter (DB.committed_at loc) (DB.objects db)) <->
  In o (DB.objects db) /\ Object.Location o = loc /\ Object.Status o = Committed.
Proof. rewrite filter_In, committed_at_iff. tauto. Qed.

(** The first row of the latest-version query: a stored Committed row of the
    location whose version no other such row exceeds. *)
Lemma latest_row_Some (db : DB.t) (loc : ObjectLocation.t) (row : Object.t) :
  limit_1 (DB.select_latest_version db loc) = Some row ->
  In row (DB.objects db) /\ Object.Location row = loc /\
  Object.Status row = Committed /\
  forall o, In o (DB.objects db) -> Object.Location o = loc ->
            Object.Status o = Committed -> Object.Version o <= Object.Version row.
Proof.
  unfold DB.select_latest_version. intros H.
  apply limit_1_order_by_desc in H. destruct H as [Hin Hmax].
  apply select_latest_version_In in Hin. destruct Hin as (Hin & Hloc & Hst).
  repeat split; auto.
  intros o Ho Hl Hs. apply Hmax. apply select_latest_version_In. auto.
Qed.

Lemma latest_row_None (db : DB.t) (loc : ObjectLocation.t) :
  limit_1 (DB.select_latest_version db loc) = None <->
  forall o, In o (DB.objects db) -> Object.Location o = loc ->
            Object.Status o <> Committed.
Proof.
  unfold DB.select_latest_version. rewrite limit_1_order_by_desc_None.
  split.
  - intros Hnil o Ho Hl Hs.
    assert (Hin : In o (filter (DB.committed_at loc) (DB.objects db)))
      by (apply select_latest_version_In; auto).
    rewrite Hnil in Hin. destruct Hin.
  - intros H. destruct (filter _ _) as [|o rest] eqn:E; [reflexivity|].
    assert (Hin : In o (filter (DB.committed_at loc) (DB.objects db)))
      by (rewrite E; left; reflexivity).
    apply select_latest_version_In in Hin. destruct Hin as (Hin & Hl & Hs).
    exfalso. exact (H o Hin Hl Hs).
Qed.

(** What [GetObjectLatestVersion] does with a location that passes the
    check, in terms of the first row of its query. *)
Lemma GetObjectLatestVersion_unfold (db : DB.t) (loc : ObjectLocation.t) :
  ObjectLocation.Verify loc = None ->
  DB.GetObjectLatestVersion db (GetObjectLatestVersion.mk loc) =
  match limit_1 (DB.select_latest_version db loc) with
  | Some row => ((row, None), DB.sent db)
  | None => ((Object.zero,
              Some (Wrap ErrObjectNotFound (Wrap Error sql_ErrNoRows))), DB.sent db)
  end.
Proof.
  intros Hok. unfold DB.GetObjectLatestVersion, GetObjectLatestVersion.Verify.
  simpl. rewrite Hok, Scan_limit_1.
  destruct (limit_1 (DB.select_latest_version db loc)) as [row|] eqn:E.
  - apply latest_row_Some in E. destruct E as (_ & Hloc & Hst & _).
    rewrite latest_roundtrip by assumption. reflexivity.
  - reflexivity.
Qed.

(** C4, as amended.  [GetObjectLatestVersion] refuses a location with an
    empty field with InvalidRequest and sends no query.  For every other
    location it returns the stored Committed row of the location with the
    greatest version, and fails with ObjectNotFound when no row of the
    location is Committed, whatever Pending rows, of whatever version, the
    location holds. *)
Theorem GetObjectLatestVersion_spec (db : DB.t) (loc : ObjectLocation.t) :
  ((ObjectLocation.ProjectID loc = 0%N \/
    ObjectLocation.BucketName loc = "" \/
    ObjectLocation.ObjectKey loc = "") ->
   exists e, DB.GetObjectLatestVersion db (GetObjectLatestVersion.mk loc) =
             ((Object.zero, Some e), db) /\
             Has ErrInvalidRequest e = true)
  /\
  (ObjectLocation.ProjectID loc <> 0%N ->
   ObjectLocation.BucketName loc <> "" ->
   ObjectLocation.ObjectKey loc <> "" ->
   ((exists o, In o (DB.objects db) /\ Object.Location o = loc /\
               Object.Status o = Committed) ->
    exists o, In o (DB.objects db) /\ Object.Location o = loc /\
              Object.Status o = Committed /\
              (forall o', In o' (DB.objects db) -> Object.Location o' = loc ->
                          Object.Status o' = Committed ->
                          Object.Version o' <= Object.Version o) /\
              DB.GetObjectLatestVersion db (GetObjectLatestVersion.mk loc) =
              ((o, None), DB.sent db))
   /\
   ((forall o, In o (DB.objects db) -> Object.Location o = loc ->
               Object.Status o <> Committed) ->
    exists e, DB.GetObjectLatestVersion db (GetObjectLatestVersion.mk loc) =
              ((Object.zero, Some e), DB.sent db) /\
              Has ErrObjectNotFound e = true)).
Proof.
  split.
  { intros Hbad. apply Verify_location_empty in Hbad.
    destruct Hbad as (e & He & Hkind). exists e. split; [|exact Hkind].
    unfold DB.GetObjectLatestVersion, GetObjectLatestVersion.Verify. simpl.
    rewrite He. reflexivity. }
  intros Hp Hb Hk.
  assert (Hok : ObjectLocation.Verify loc = None)
    by (apply Verify_location_None; auto).
  rewrite (GetObjectLatestVersion_unfold db loc Hok).
  destruct (limit_1 (DB.select_latest_version db loc)) as [row|] eqn:E.
  - pose proof (latest_row_Some _ _ _ E) as (Hin & Hloc & Hst & Hmax).
    split.
    + intros _. exists row. repeat split; auto.
    + intros Hnone. exfalso. exact (Hnone row Hin Hloc Hst).
  - pose proof (proj1 (latest_row_None db loc) E) as Hnone.
    split.
    + intros (o & Hin & Hloc & Hst). exfalso. exact (Hnone o Hin Hloc Hst).
    + intros _. eexists. split; reflexivity.
Qed.

(** *** GetSegmentByOffset *)

Lemma Scan_all_roundtrip (row : Segment.t) :
  Segment.Scan_all row Segment.zero = row.
Proof. destruct row; reflexivity. Qed.

(** The subquery names the stream of the object [GetObjectLatestVersion]
    returns. *)
Lemma stream_is_latest (db : DB.t) (loc : ObjectLocation.t) (s : Segment.t) :
  ObjectLocation.Verify loc = None ->
  DB.stream_is (DB.latest_stream_id db loc) s = true <->
  exists o, fst (DB.GetObjectLatestVersion db (GetObjectLatestVersion.mk loc))
            = (o, None) /\
            Segment.StreamID s = Object.StreamID o.
Proof.
  intros Hok. rewrite (GetObjectLatestVersion_unfold db loc Hok).
  unfold DB.latest_stream_id, DB.stream_is.
  destruct (limit_1 (DB.select_latest_version db loc)) as [row|]; simpl.
  - rewrite N.eqb_eq. split.
    + intros H. exists row. auto.
    + intros (o & [= <-] & H). exact H.
  - split; [discriminate | intros (o & [=] & _)].
Qed.

Lemma select_segment_by_offset_In (db : DB.t) (loc : ObjectLocation.t)
  (offset : Z) (s : Segment.t) :
  ObjectLocation.Verify loc = None ->
  In s (filter (fun s => DB.stream_is (DB.latest_stream_id db loc) s
                         && (Segment.PlainOffset s <=? offset)
                         && (Segment.PlainSize s + Segment.PlainOffset s >? offset))
               (DB.segments db)) <->
  covers db loc offset s.
Proof.
  intros Hok. unfold covers.
  rewrite filter_In, !andb_true_iff, (stream_is_latest db loc s Hok).
  rewrite Z.leb_le, Z.gtb_gt. intuition lia.
Qed.

(** C7, as amended.  [GetSegmentByOffset] refuses every negative offset, and
    every location with an empty field, with InvalidRequest and sends no
    query.  For an offset that is not negative and a location with no empty
    field, it returns a stored segment that
    covers the offset in the stream of the latest Committed object, one with
    the least PlainOffset among those that do, and fails with ObjectNotFound
    when no stored segment covers it (the location has no Committed object,
    or no segment of its stream contains the offset). *)
Theorem GetSegmentByOffset_spec (db : DB.t) (opts : GetSegmentByOffset.t) :
  ((GetSegmentByOffset.PlainOffset opts < 0 \/
    ObjectLocation.ProjectID (GetSegmentByOffset.Location opts) = 0%N \/
    ObjectLocation.BucketName (GetSegmentByOffset.Location opts) = "" \/
    ObjectLocation.ObjectKey (GetSegmentByOffset.Location opts) = "") ->
   exists e, DB.GetSegmentByOffset db opts = ((Segment.zero, Some e), db) /\
             Has ErrInvalidRequest e = true)
  /\
  (0 <= GetSegmentByOffset.PlainOffset opts ->
   ObjectLocation.ProjectID (GetSegmentByOffset.Location opts) <> 0%N ->
   ObjectLocation.BucketName (GetSegmentByOffset.Location opts) <> "" ->
   ObjectLocation.ObjectKey (GetSegmentByOffset.Location opts) <> "" ->
   ((exists s, covers db (GetSegmentByOffset.Location opts)
                      (GetSegmentByOffset.PlainOffset opts) s) ->
    exists s, covers db (GetSegmentByOffset.Location opts)
                     (GetSegmentByOffset.PlainOffset opts) s /\
              (forall s', covers db (GetSegmentByOffset.Location opts)
                                 (GetSegmentByOffset.PlainOffset opts) s' ->
                          Segment.PlainOffset s <= Segment.PlainOffset s') /\
              DB.GetSegmentByOffset db opts = ((s, None), DB.sent db))
   /\
   ((forall s, ~ covers db (GetSegmentByOffset.Location opts)
                        (GetSegmentByOffset.PlainOffset opts) s) ->
    exists e, DB.GetSegmentByOffset db opts = ((Segment.zero, Some e), DB.sent db) /\
              Has ErrObjectNotFound e = true)).
Proof.
  split.
  - intros Hbad. unfold DB.GetSegmentByOffset, GetSegmentByOffset.Verify.
    destruct (ObjectLocation.Verify _) as [e|] eqn:E.
    + exists e. split; [reflexivity|]. eapply Verify_location_Some; eassumption.
    + apply Verify_location_None in E.
      destruct Hbad as [Hneg|Hbad]; [|exfalso; tauto].
      apply Z.ltb_lt in Hneg. rewrite Hneg. eexists. split; reflexivity.
  - intros Hoff Hp Hb Hk.
    set (loc := GetSegmentByOffset.Location opts) in *.
    set (offset := GetSegmentByOffset.PlainOffset opts) in *.
    assert (Hok : ObjectLocation.Verify loc = None)
      by (apply Verify_location_None; auto).
    unfold DB.GetSegmentByOffset, GetSegmentByOffset.Verify.
    fold loc offset. rewrite Hok.
    apply Z.ltb_ge in Hoff. rewrite Hoff. cbv zeta.
    rewrite Scan_limit_1. unfold DB.select_segment_by_offset.
    match goal with
    | |- context [limit_1 (order_by_asc ?k ?l)] =>
        destruct (limit_1 (order_by_asc k l)) as [row|] eqn:E
    end.
    + apply limit_1_order_by_asc in E. destruct E as [Hin Hmin].
      apply (select_segment_by_offset_In db loc offset row Hok) in Hin.
      split.
      * intros _. exists row. split; [exact Hin|]. split.
        -- intros s' Hs'. apply Hmin.
           apply (select_segment_by_offset_In db loc offset s' Hok). exact Hs'.
        -- rewrite Scan_all_roundtrip. reflexivity.
      * intros Hnone. exfalso. exact (Hnone row Hin).
    + apply limit_1_order_by_asc_None in E.
      split.
      * intros (s & Hs). exfalso.
        apply (select_segment_by_offset_In db loc offset s Hok) in Hs.
        rewrite E in Hs. destruct Hs.
      * intros _. eexists. split; reflexivity.
Qed.

(** *** BucketEmpty *)

Lemma select_bucket_rows_nil (db : DB.t) (project : UUID) (bucket : string) :
  DB.select_bucket_rows db project bucket = [] <->
  forall o, In o (DB.objects db) ->
            ~ (Object.ProjectID o = project /\ Object.BucketName o = bucket).
Proof.
  unfold DB.select_bucket_rows. split.
  - intros H o Ho [Hp Hb].
    apply map_eq_nil in H.
    assert (Hin : In o (filter (fun o => N.eqb (Object.ProjectID o) project
                                         && String.eqb (Object.BucketName o) bucket)
                               (DB.objects db))).
    { apply filter_In. split; [exact Ho|].
      apply andb_true_iff. split; [apply N.eqb_eq | apply String.eqb_eq]; assumption. }
    rewrite H in Hin. destruct Hin.
  - intros H. destruct (filter _ _) as [|o rest] eqn:E; [reflexivity|].
    assert (Hin : In o (o :: rest)) by (left; reflexivity).
    rewrite <- E in Hin. apply filter_In in Hin. destruct Hin as [Ho Hf].
    apply andb_true_iff in Hf. destruct Hf as [Hp Hb].
    apply N.eqb_eq in Hp. apply String.eqb_eq in Hb.
    exfalso. exact (H o Ho (conj Hp Hb)).
Qed.

(** C8.  [BucketEmpty] refuses a zero project or an empty bucket name with
    InvalidRequest; otherwise it answers true exactly when no stored object
    row, of whatever status, has that project and bucket, and false exactly
    when some row has.  The answer is a function of the rows of the objects
    table alone: nothing records whether the bucket exists. *)
Theorem BucketEmpty_spec (db : DB.t) (opts : BucketEmpty.t) :
  ((BucketEmpty.ProjectID opts = 0%N \/ BucketEmpty.BucketName opts = "") ->
   exists e, DB.BucketEmpty db opts = ((false, Some e), db) /\
             Has ErrInvalidRequest e = true)
  /\
  (BucketEmpty.ProjectID opts <> 0%N -> BucketEmpty.BucketName opts <> "" ->
   ((forall o, In o (DB.objects db) ->
               ~ (Object.ProjectID o = BucketEmpty.ProjectID opts /\
                  Object.BucketName o = BucketEmpty.BucketName opts)) <->
    DB.BucketEmpty db opts = ((true, None), DB.sent db))
   /\
   ((exists o, In o (DB.objects db) /\
               Object.ProjectID o = BucketEmpty.ProjectID opts /\
               Object.BucketName o = BucketEmpty.BucketName opts) <->
    DB.BucketEmpty db opts = ((false, None), DB.sent db)))
  /\
  (forall db', DB.objects db' = DB.objects db ->
               fst (DB.BucketEmpty db' opts) = fst (DB.BucketEmpty db opts)).
Proof.
  split; [|split].
  - unfold DB.BucketEmpty, UUID_IsZero. intros [H|H].
    + rewrite H. simpl. eexists. split; reflexivity.
    + rewrite H. destruct (N.eqb _ _); eexists; split; reflexivity.
  - intros Hp Hb. unfold DB.BucketEmpty, UUID_IsZero.
    apply N.eqb_neq in Hp. apply String.eqb_neq in Hb. rewrite Hp, Hb.
    cbv zeta. rewrite Scan_limit_1.
    pose proof (select_bucket_rows_nil db (BucketEmpty.ProjectID opts)
                  (BucketEmpty.BucketName opts)) as Hnil.
    destruct (DB.select_bucket_rows db _ _) as [|value rest] eqn:E; simpl.
    + split.
      * split; [reflexivity | intros _; apply Hnil; reflexivity].
      * split; [|discriminate].
        intros (o & Ho & Hpo & Hbo). exfalso.
        exact (proj1 Hnil eq_refl o Ho (conj Hpo Hbo)).
    + split.
      * split; [|discriminate].
        intros H. apply Hnil in H. discriminate.
      * split; [reflexivity|]. intros _.
        unfold DB.select_bucket_rows in E.
        destruct (filter _ _) as [|o rest'] eqn:F; [discriminate|].
        assert (Hin : In o (o :: rest')) by (left; reflexivity).
        rewrite <- F in Hin. apply filter_In in Hin. destruct Hin as [Ho Hf].
        apply andb_true_iff in Hf. destruct Hf as [Hpo Hbo].
        apply N.eqb_eq in Hpo. apply String.eqb_eq in Hbo.
        exists o. auto.
  - intros db' Hsame. unfold DB.BucketEmpty, DB.select_bucket_rows.
    rewrite Hsame.
    destruct (UUID_IsZero _); [reflexivity|].
    destruct (String.eqb _ _); [reflexivity|].
    cbv zeta. destruct (DB.Scan _) as [err|value]; [|reflexivity].
    destruct (Is_ErrNoRows err); reflexivity.
Qed.

(** *** GetSegmentByPosition *)

Lemma select_segment_by_position_In (db : DB.t) (id : UUID) (position : Z)
  (s : Segment.t) :
  In s (DB.select_segment_by_position db id position) <->
  DB.objects db <> [] /\ In s (DB.segments db) /\
  Segment.StreamID s = id /\
  SegmentPosition.Encode (Segment.Position s) = position.
Proof.
  unfold DB.select_segment_by_position. rewrite in_map_iff. split.
  - intros ([o s'] & <- & Hin). apply filter_In in Hin. simpl in Hin.
    destruct Hin as [Hprod Hf]. apply in_prod_iff in Hprod.
    destruct Hprod as [Ho Hs]. apply andb_true_iff in Hf.
    destruct Hf as [Hid Hpos]. apply N.eqb_eq in Hid. apply Z.eqb_eq in Hpos.
    repeat split; auto. intros Hnil. rewrite Hnil in Ho. destruct Ho.
  - intros (Hne & Hs & Hid & Hpos).
    assert (Hex : exists o, In o (DB.objects db)).
    { destruct (DB.objects db) as [|o rest]; [contradiction|].
      exists o. left; reflexivity. }
    destruct Hex as [o Ho].
    exists (o, s). split; [reflexivity|]. apply filter_In. split.
    + apply in_prod_iff. split; assumption.
    + cbn [snd]. apply andb_true_iff.
      split; [apply N.eqb_eq | apply Z.eqb_eq]; assumption.
Qed.

Lemma Scan_payload_roundtrip (row : Segment.t) (id : UUID)
  (position : SegmentPosition.t) :
  Segment.StreamID row = id ->
  Segment.set_Position position
    (Segment.set_StreamID id (Segment.Scan_payload row Segment.zero))
  = Segment.set_Position position row.
Proof. destruct row; simpl. intros ->. reflexivity. Qed.

(** C6, as amended.  [GetSegmentByPosition] refuses the zero stream ID with
    InvalidRequest.  For any other stream ID it is an exact lookup: when a
    stored segment has that stream ID and position (and the objects table is
    not empty) it returns such a segment, under the requested position; when
    no stored segment has, it fails with the generic error class of the
    package ("segment missing"), which is not the ObjectNotFound kind. *)
Theorem GetSegmentByPosition_spec (db : DB.t) (opts : GetSegmentByPosition.t) :
  (GetSegmentByPosition.StreamID opts = 0%N ->
   exists e, DB.GetSegmentByPosition db opts = ((Segment.zero, Some e), db) /\
             Has ErrInvalidRequest e = true)
  /\
  (GetSegmentByPosition.StreamID opts <> 0%N ->
   ((exists s, In s (DB.segments db) /\
               Segment.StreamID s = GetSegmentByPosition.StreamID opts /\
               SegmentPosition.Encode (Segment.Position s) =
               SegmentPosition.Encode (GetSegmentByPosition.Position opts)) ->
    DB.objects db <> [] ->
    exists s, In s (DB.segments db) /\
              Segment.StreamID s = GetSegmentByPosition.StreamID opts /\
              SegmentPosition.Encode (Segment.Position s) =
              SegmentPosition.Encode (GetSegmentByPosition.Position opts) /\
              DB.GetSegmentByPosition db opts =
              ((Segment.set_Position (GetSegmentByPosition.Position opts) s, None),
               DB.sent db))
   /\
   ((forall s, In s (DB.segments db) ->
               Segment.StreamID s = GetSegmentByPosition.StreamID opts ->
               SegmentPosition.Encode (Segment.Position s) <>
               SegmentPosition.Encode (GetSegmentByPosition.Position opts)) ->
    exists e, DB.GetSegmentByPosition db opts = ((Segment.zero, Some e), DB.sent db) /\
              Has Error e = true /\ Has ErrObjectNotFound e = false)).
Proof.
  unfold DB.GetSegmentByPosition, GetSegmentByPosition.Verify, UUID_IsZero.
  split.
  - intros ->. simpl. eexists. split; reflexivity.
  - intros Hid. apply N.eqb_neq in Hid. rewrite Hid. cbv zeta.
    rewrite Scan_limit_1.
    set (id := GetSegmentByPosition.StreamID opts).
    set (pos := SegmentPosition.Encode (GetSegmentByPosition.Position opts)).
    pose proof (select_segment_by_position_In db id pos) as HIn.
    destruct (DB.select_segment_by_position db id pos) as [|row rest] eqn:E; simpl.
    + split.
      * intros (s & Hs & Hsid & Hpos) Hne. exfalso.
        apply (proj2 (HIn s)). auto.
      * intros _. eexists. repeat split; reflexivity.
    + destruct (proj1 (HIn row) (or_introl eq_refl)) as (Hne & Hs & Hsid & Hpos).
      split.
      * intros _ _. exists row. repeat split; auto.
        rewrite Scan_payload_roundtrip by assumption. reflexivity.
      * intros Hnone. exfalso. exact (Hnone row Hs Hsid Hpos).
Qed.

End ReadPath.

(** ** The precommit constraint *)

Section Precommit.
Import metabase precommit.

Variable stale : Time -> Object.t -> bool.
Variable now : Time.

Lemma precommit_at_location_iff (loc : ObjectLocation.t) (o : Object.t) :
  precommit.at_location loc o = true <-> Object.Location o = loc.
Proof. unfold precommit.at_location, Object.Location. apply at_location_iff. Qed.

Lemma filter_none {A : Type} (f : A -> bool) (l : list A) :
  (forall x, In x l -> f x = false) -> filter f l = [].
Proof.
  induction l as [|x l IH]; intros H; simpl; [reflexivity|].
  rewrite (H x (or_introl eq_refl)). apply IH. intros y Hy. apply H. right; exact Hy.
Qed.

(** A Committed row of the location is a candidate in every delete mode. *)
Lemma committed_is_candidate (loc : ObjectLocation.t) (mode : PrecommitDeleteMode)
  (o : Object.t) :
  Object.Location o = loc -> Object.Status o = Committed ->
  is_candidate stale now loc mode o = true.
Proof.
  intros Hloc Hst. unfold is_candidate, eligible.
  rewrite (proj2 (precommit_at_location_iff loc o) Hloc), Hst.
  destruct mode; reflexivity.
Qed.

(** C1.  On a location that holds no object, Pending or Committed,
    [PrecommitConstraint] returns the zero-value result and no error for
    either value of [versioned] and of [disallowDelete] (and in every delete
    mode), and so does [PrecommitDeleteUnversionedWithNonPending]; the
    transaction is left as it was. *)
Theorem PrecommitConstraint_empty (tx : Tx.t) (loc : ObjectLocation.t)
  (versioned disallowDelete : bool) (mode : PrecommitDeleteMode) :
  (forall o, In o (Tx.objects tx) -> Object.Location o <> loc) ->
  PrecommitConstraint stale now
    (PrecommitConstraint.mk loc versioned disallowDelete mode) tx
  = ((PrecommitConstraintResult.zero, None), tx) /\
  PrecommitDeleteUnversionedWithNonPending stale now loc tx
  = ((PrecommitConstraintResult.zero, None), tx).
Proof.
  intros Hnone.
  assert (Hhere : filter (precommit.at_location loc) (Tx.objects tx) = []).
  { apply filter_none. intros o Ho.
    destruct (precommit.at_location loc o) eqn:E; [|reflexivity].
    apply precommit_at_location_iff in E. exfalso. exact (Hnone o Ho E). }
  assert (Hcand : forall m, filter (is_candidate stale now loc m) (Tx.objects tx) = []).
  { intros m. apply filter_none. intros o Ho. unfold is_candidate.
    destruct (precommit.at_location loc o) eqn:E; [|reflexivity].
    apply precommit_at_location_iff in E. exfalso. exact (Hnone o Ho E). }
  unfold PrecommitConstraint, PrecommitDeleteUnversionedWithNonPending,
    delete_unversioned. simpl.
  rewrite Hhere, !Hcand. simpl.
  destruct versioned; split; reflexivity.
Qed.

(** C2.  When the location holds a Committed object under Compliance
    retention that has not run out, an unversioned [PrecommitConstraint]
    (in the Object-Lock-aware mode as in every other) fails with the
    Object-Lock kind, returns the zero-value result and writes nothing:
    objects and segments are as before. *)
Theorem PrecommitConstraint_active_retention (tx : Tx.t) (loc : ObjectLocation.t)
  (disallowDelete : bool) (mode : PrecommitDeleteMode) (obj : Object.t) :
  In obj (Tx.objects tx) ->
  Object.Location obj = loc ->
  Object.Status obj = Committed ->
  Retention.Mode (Object.Retention obj) = Compliance ->
  now < Retention.RetainUntil (Object.Retention obj) ->
  exists e,
    PrecommitConstraint stale now
      (PrecommitConstraint.mk loc false disallowDelete mode) tx
    = ((PrecommitConstraintResult.zero, Some e), tx) /\
    Has ErrObjectLock e = true.
Proof.
  intros Hin Hloc Hst Hmode Huntil.
  unfold PrecommitConstraint, delete_unversioned. simpl.
  assert (Hprot : existsb (fun o => delete_protected (Object.Retention o) now)
                    (filter (is_candidate stale now loc mode) (Tx.objects tx)) = true).
  { apply existsb_exists. exists obj. split.
    - apply filter_In. split; [exact Hin|]. apply committed_is_candidate; assumption.
    - unfold delete_protected. rewrite Hmode. apply Z.gtb_gt. lia. }
  rewrite Hprot. eexists. split; reflexivity.
Qed.

(** C3.  Given a Committed object with three segments whose Compliance
    retention has run out, and a Pending object at the same location with
    the next version, an unversioned [PrecommitConstraint] in the
    Object-Lock-aware mode succeeds: it deletes the Committed object with
    all its segments and reports it alone as deleted, one object and three
    segments, with the version of the Pending object as the highest; the
    Pending object is all that remains. *)
Theorem PrecommitConstraint_expired_retention (loc : ObjectLocation.t)
  (obj pending : Object.t) (segs : list Segment.t) :
  Object.Location obj = loc ->
  Object.Status obj = Committed ->
  0 < Object.Version obj ->
  Object.SegmentCount obj = 3 ->
  List.length segs = 3%nat ->
  Forall (fun s => Segment.StreamID s = Object.StreamID obj) segs ->
  Retention.Mode (Object.Retention obj) = Compliance ->
  Retention.RetainUntil (Object.Retention obj) < now ->
  Object.Location pending = loc ->
  Object.Status pending = Pending ->
  Object.Version pending = Object.Version obj + 1 ->
  PrecommitConstraint stale now
    (PrecommitConstraint.mk loc false false WithObjectLockUnversionedPrecommitMode)
    (Tx.mk [obj; pending] segs)
  = ((PrecommitConstraintResult.mk [obj] 1 3 (Object.Version pending), None),
     Tx.mk [pending] []).
Proof.
  intros Hloc Hst Hver Hcount Hlen Hsegs Hmode Huntil Hploc Hpst Hpver.
  unfold PrecommitConstraint, delete_unversioned. simpl.
  assert (Hc : is_candidate stale now loc WithObjectLockUnversionedPrecommitMode obj = true)
    by (apply committed_is_candidate; assumption).
  assert (Hp : is_candidate stale now loc WithObjectLockUnversionedPrecommitMode pending = false).
  { unfold is_candidate, eligible. rewrite Hpst. apply andb_false_r. }
  rewrite Hc, Hp. simpl.
  assert (Hfree : delete_protected (Object.Retention obj) now = false).
  { unfold delete_protected. rewrite Hmode.
    destruct (Z.gtb_spec (Retention.RetainUntil (Object.Retention obj)) now);
      [lia | reflexivity]. }
  rewrite Hfree. simpl.
  rewrite (proj2 (precommit_at_location_iff loc pending) Hploc). simpl.
  assert (Hgone : filter (fun s => negb (owned_by [obj] s)) segs = []).
  { apply filter_none. intros s Hs. rewrite Forall_forall in Hsegs.
    unfold owned_by. simpl. rewrite (Hsegs s Hs), N.eqb_refl. reflexivity. }
  change (filter (fun s => negb ((Object.StreamID obj =? Segment.StreamID s)%N || false)) segs)
    with (filter (fun s => negb (owned_by [obj] s)) segs).
  rewrite Hgone, Hcount.
  unfold highest_version. simpl.
  replace (Z.max (Object.Version pending) 0) with (Object.Version pending) by lia.
  reflexivity.
Qed.

End Precommit.

(** ** The coupon repository *)

Section CouponFacts.
Import satellitedb.

Variable BytesToUUID : bytes -> UUID * option error.
Variable StatusPending : Z.

(** [couponsFromDbxSlice] keeps one error for every row that fails, not the
    first one only. *)
Lemma couponsFromDbxSlice_loop_collects (rows : list dbx_Coupon.t)
  (coupons : list Coupon.t) (errors : list error) :
  List.length (snd (couponsFromDbxSlice_loop BytesToUUID rows coupons errors))
  = (List.length errors + List.length (failing BytesToUUID rows))%nat.
Proof.
  revert coupons errors.
  induction rows as [|r rows IH]; intros coupons errors; simpl.
  - lia.
  - destruct (fromDBXCoupon BytesToUUID r) as [c [err|]] eqn:E; simpl.
    + rewrite IH, length_app. simpl. lia.
    + rewrite IH. lia.
Qed.

Lemma couponsFromDbxSlice_error (rows : list dbx_Coupon.t) :
  snd (couponsFromDbxSlice BytesToUUID rows) = None <-> failing BytesToUUID rows = [].
Proof.
  unfold couponsFromDbxSlice.
  pose proof (couponsFromDbxSlice_loop_collects rows [] []) as Hlen.
  destruct (couponsFromDbxSlice_loop BytesToUUID rows [] []) as [cs errors].
  simpl in *. split.
  - intros H. destruct errors as [|e [|e' errors]]; try discriminate.
    destruct (failing BytesToUUID rows); [reflexivity | discriminate].
  - intros H. rewrite H in Hlen. destruct errors; [reflexivity | discriminate].
Qed.

(** Whenever the query succeeds with fewer rows than the limit asks for and
    some row fails to convert, [ListPaged] hands back the empty page and no
    error. *)
Lemma ListPaged_swallows (db : satelliteDB.t) (offset limit : Z)
  (before : Time) (status : Z) (rows : list dbx_Coupon.t) :
  satelliteDB.Limited_Coupon_By_CreatedAt_LessOrEqual_And_Status_OrderBy_Desc_CreatedAt
    db before StatusPending (add64 limit 1) offset = (rows, None) ->
  Z.of_nat (List.length rows) <> add64 limit 1 ->
  failing BytesToUUID rows <> [] ->
  ListPaged BytesToUUID StatusPending db offset limit before status
  = (CouponsPage.zero, None).
Proof.
  intros Hq Hlen Hfail. unfold ListPaged. rewrite Hq.
  apply Z.eqb_neq in Hlen. rewrite Hlen.
  destruct (couponsFromDbxSlice BytesToUUID rows) as [cs [err|]] eqn:E.
  - reflexivity.
  - exfalso. apply Hfail. apply couponsFromDbxSlice_error. rewrite E. reflexivity.
Qed.

End CouponFacts.

(** C9.  Run on a table whose second row has a user id of fifteen bytes:
    the conversion of the rows reports an error, the sibling listing returns
    that error, and [ListPaged] returns the zero-value page with no error. *)
Theorem ListPaged_swallows_conversion_error :
  let rows := [samples.coupon_row samples.sixteen;
               samples.coupon_row (repeat Byte.x01 15)] in
  satellitedb.couponsFromDbxSlice satellitedb.BytesToUUID_16 rows
  = ([satellitedb.Coupon.mk samples.sixteen samples.sixteen samples.sixteen
        500 2 "promo" 0 0 1000],
     Some (satellitedb.errs_New "Invalid uuid")) /\
  satellitedb.ListByUserID satellitedb.BytesToUUID_16 (rows, None)
  = ([satellitedb.Coupon.mk samples.sixteen samples.sixteen samples.sixteen
        500 2 "promo" 0 0 1000],
     Some (satellitedb.errs_New "Invalid uuid")) /\
  satellitedb.ListPaged satellitedb.BytesToUUID_16 0
    samples.coupons_with_bad_row 0 10 2000 0
  = (satellitedb.CouponsPage.zero, None).
Proof. vm_compute. repeat split. Qed.

(** ** Runs on the concrete tables *)

Section Runs.
Import metabase.

Lemma GetObjectExactVersion_spec_witness :
  exists o, In o (DB.objects samples.db) /\
            Object.Location o = samples.loc /\
            Object.Version o = 2 /\
            Object.Status o = Committed /\
            DB.GetObjectExactVersion samples.db
              (GetObjectExactVersion.mk 2 samples.loc)
            = ((o, None), DB.sent samples.db).
Proof.
  refine (proj1 (proj2 (GetObjectExactVersion_spec samples.db
            (GetObjectExactVersion.mk 2 samples.loc)) _ _ _ _) _).
  - simpl. lia.
  - discriminate.
  - discriminate.
  - discriminate.
  - exists (samples.row 2 Committed 12%N). simpl. auto 10.
Defined.

Lemma GetObjectExactVersion_identity_witness :
  DB.GetObjectExactVersion samples.db (GetObjectExactVersion.mk 2 samples.loc)
  = ((samples.row 2 Committed 12%N, None), DB.sent samples.db) /\
  (Object.ProjectID (samples.row 2 Committed 12%N) = 7%N /\
   Object.BucketName (samples.row 2 Committed 12%N) = "bucket" /\
   Object.ObjectKey (samples.row 2 Committed 12%N) = "key" /\
   Object.Version (samples.row 2 Committed 12%N) = 2 /\
   Object.Status (samples.row 2 Committed 12%N) = Committed).
Proof.
  split; [reflexivity|].
  apply (GetObjectExactVersion_identity samples.db (DB.sent samples.db)
           (GetObjectExactVersion.mk 2 samples.loc)).
  reflexivity.
Defined.

Lemma GetObjectLatestVersion_spec_witness :
  (exists o, In o (DB.objects samples.db) /\ Object.Location o = samples.loc /\
             Object.Status o = Committed /\
             (forall o', In o' (DB.objects samples.db) ->
                         Object.Location o' = samples.loc ->
                         Object.Status o' = Committed ->
                         Object.Version o' <= Object.Version o) /\
             DB.GetObjectLatestVersion samples.db
               (GetObjectLatestVersion.mk samples.loc)
             = ((o, None), DB.sent samples.db))
  /\
  (exists e, DB.GetObjectLatestVersion samples.db_pending
               (GetObjectLatestVersion.mk samples.loc)
             = ((Object.zero, Some e), DB.sent samples.db_pending) /\
             Has ErrObjectNotFound e = true).
Proof.
  split.
  - refine (proj1 (proj2 (GetObjectLatestVersion_spec samples.db samples.loc) _ _ _) _);
      [discriminate | discriminate | discriminate |].
    exists (samples.row 1 Committed 11%N). simpl. auto.
  - refine (proj2 (proj2 (GetObjectLatestVersion_spec samples.db_pending samples.loc) _ _ _) _);
      [discriminate | discriminate | discriminate |].
    intros o [<-|[]] _. discriminate.
Defined.

Lemma GetSegmentByOffset_spec_witness :
  exists s, covers samples.db samples.loc 150 s /\
            (forall s', covers samples.db samples.loc 150 s' ->
                        Segment.PlainOffset s <= Segment.PlainOffset s') /\
            DB.GetSegmentByOffset samples.db (GetSegmentByOffset.mk samples.loc 150)
            = ((s, None), DB.sent samples.db).
Proof.
  refine (proj1 (proj2 (GetSegmentByOffset_spec samples.db
            (GetSegmentByOffset.mk samples.loc 150)) _ _ _ _) _).
  - simpl. lia.
  - discriminate.
  - discriminate.
  - discriminate.
  - exists (samples.seg 12%N 1 100 100). unfold covers. split; [|split].
    + simpl. auto.
    + exists (samples.row 2 Committed 12%N). split; reflexivity.
    + simpl. lia.
Defined.

Lemma BucketEmpty_spec_witness :
  DB.BucketEmpty samples.db (BucketEmpty.mk 7%N "bucket")
  = ((false, None), DB.sent samples.db) /\
  DB.BucketEmpty samples.db (BucketEmpty.mk 7%N "elsewhere")
  = ((true, None), DB.sent samples.db).
Proof.
  split.
  - refine (proj1 (proj2 (proj1 (proj2 (BucketEmpty_spec samples.db
              (BucketEmpty.mk 7%N "bucket"))) _ _)) _);
      [discriminate | discriminate |].
    exists (samples.row 3 Pending 13%N). simpl. auto.
  - refine (proj1 (proj1 (proj1 (proj2 (BucketEmpty_spec samples.db
              (BucketEmpty.mk 7%N "elsewhere"))) _ _)) _);
      [discriminate | discriminate |].
    intros o Ho [_ Hb]. simpl in Ho.
    destruct Ho as [<-|[<-|[<-|[]]]]; discriminate.
Defined.

Lemma GetSegmentByPosition_spec_witness :
  exists s, In s (DB.segments samples.db) /\
            Segment.StreamID s = 12%N /\
            SegmentPosition.Encode (Segment.Position s) = 1 /\
            DB.GetSegmentByPosition samples.db
              (GetSegmentByPosition.mk 12%N (SegmentPosition.mk 0 1))
            = ((Segment.set_Position (SegmentPosition.mk 0 1) s, None),
               DB.sent samples.db).
Proof.
  refine (proj1 (proj2 (GetSegmentByPosition_spec samples.db
            (GetSegmentByPosition.mk 12%N (SegmentPosition.mk 0 1))) _) _ _).
  - discriminate.
  - exists (samples.seg 12%N 1 100 100). simpl. auto 10.
  - discriminate.
Defined.

(** At a location whose project ID is zero, where nothing is stored, the
    error of [GetObjectLatestVersion] is not of the ObjectNotFound kind. *)
Lemma GetObjectLatestVersion_zero_project :
  (forall o, In o (DB.objects samples.db) ->
             Object.Location o = samples.loc_no_project ->
             Object.Status o <> Committed) /\
  exists e, DB.GetObjectLatestVersion samples.db
              (GetObjectLatestVersion.mk samples.loc_no_project)
            = ((Object.zero, Some e), samples.db) /\
            Has ErrInvalidRequest e = true /\
            Has ErrObjectNotFound e = false.
Proof.
  split.
  - intros o Ho Hloc. simpl in Ho.
    destruct Ho as [<-|[<-|[<-|[]]]]; discriminate.
  - eexists. repeat split.
Qed.

(** The same for [GetSegmentByOffset] at offset 0: no stored segment covers
    it, and the error is not of the ObjectNotFound kind. *)
Lemma GetSegmentByOffset_zero_project :
  (forall s, ~ covers samples.db samples.loc_no_project 0 s) /\
  exists e, DB.GetSegmentByOffset samples.db
              (GetSegmentByOffset.mk samples.loc_no_project 0)
            = ((Segment.zero, Some e), samples.db) /\
            Has ErrInvalidRequest e = true /\
            Has ErrObjectNotFound e = false.
Proof.
  split.
  - intros s (_ & (o & Ho & _) & _). discriminate.
  - eexists. repeat split.
Qed.

(** No stored segment of stream 12 has position (0, 9); the error of
    [GetSegmentByPosition] for it is of the generic class and not of the
    ObjectNotFound kind. *)
Lemma GetSegmentByPosition_missing_kind :
  (forall s, In s (DB.segments samples.db) ->
             Segment.StreamID s = 12%N ->
             SegmentPosition.Encode (Segment.Position s) <>
             SegmentPosition.Encode (SegmentPosition.mk 0 9)) /\
  exists e, DB.GetSegmentByPosition samples.db
              (GetSegmentByPosition.mk 12%N (SegmentPosition.mk 0 9))
            = ((Segment.zero, Some e), DB.sent samples.db) /\
            Has Error e = true /\
            Has ErrObjectNotFound e = false.
Proof.
  split.
  - intros s Hs _. simpl in Hs.
    destruct Hs as [<-|[<-|[<-|[<-|[]]]]]; discriminate.
  - eexists. repeat split.
Qed.

End Runs.

Section PrecommitRuns.
Import metabase precommit.

Lemma PrecommitConstraint_empty_witness :
  PrecommitConstraint samples.never_stale 1000
    (PrecommitConstraint.mk samples.loc false true DefaultUnversionedPrecommitMode)
    (Tx.mk [samples.elsewhere] [])
  = ((PrecommitConstraintResult.zero, None), Tx.mk [samples.elsewhere] []) /\
  PrecommitDeleteUnversionedWithNonPending samples.never_stale 1000 samples.loc
    (Tx.mk [samples.elsewhere] [])
  = ((PrecommitConstraintResult.zero, None), Tx.mk [samples.elsewhere] []).
Proof.
  apply (PrecommitConstraint_empty samples.never_stale 1000
           (Tx.mk [samples.elsewhere] []) samples.loc false true
           DefaultUnversionedPrecommitMode).
  intros o [<-|[]]. discriminate.
Defined.

Lemma PrecommitConstraint_active_retention_witness :
  exists e,
    PrecommitConstraint samples.never_stale 1000
      (PrecommitConstraint.mk samples.loc false false
         WithObjectLockUnversionedPrecommitMode)
      (Tx.mk [samples.locked 4600] samples.three_segments)
    = ((PrecommitConstraintResult.zero, Some e),
       Tx.mk [samples.locked 4600] samples.three_segments) /\
    Has ErrObjectLock e = true.
Proof.
  apply (PrecommitConstraint_active_retention samples.never_stale 1000
           (Tx.mk [samples.locked 4600] samples.three_segments) samples.loc
           false WithObjectLockUnversionedPrecommitMode (samples.locked 4600)).
  - left; reflexivity.
  - reflexivity.
  - reflexivity.
  - reflexivity.
  - vm_compute. reflexivity.
Defined.

Lemma PrecommitConstraint_expired_retention_witness :
  PrecommitConstraint samples.never_stale 1000
    (PrecommitConstraint.mk samples.loc false false
       WithObjectLockUnversionedPrecommitMode)
    (Tx.mk [samples.locked 940; samples.pending] samples.three_segments)
  = ((PrecommitConstraintResult.mk [samples.locked 940] 1 3 2, None),
     Tx.mk [samples.pending] []).
Proof.
  apply (PrecommitConstraint_expired_retention samples.never_stale 1000
           samples.loc (samples.locked 940) samples.pending
           samples.three_segments).
  - reflexivity.
  - reflexivity.
  - vm_compute. reflexivity.
  - reflexivity.
  - reflexivity.
  - repeat constructor.
  - reflexivity.
  - vm_compute. reflexivity.
  - reflexivity.
  - reflexivity.
  - reflexivity.
Defined.

End PrecommitRuns.

(** * Further properties of the read path *)

Section ReadPathMore.
Import metabase tables.

Lemma GetObjectExactVersion_unfold (db : DB.t) (opts : GetObjectExactVersion.t) :
  GetObjectExactVersion.Verify opts = None ->
  DB.GetObjectExactVersion db opts =
  match limit_1 (DB.select_exact_version db (GetObjectExactVersion.Location opts)
                   (GetObjectExactVersion.Version opts)) with
  | Some row => ((row, None), DB.sent db)
  | None => ((Object.zero,
              Some (Wrap ErrObjectNotFound (Wrap Error sql_ErrNoRows))), DB.sent db)
  end.
Proof.
  intros Hok. unfold DB.GetObjectExactVersion. rewrite Hok, Scan_limit_1.
  cbv zeta.
  destruct (limit_1 (DB.select_exact_version db _ _)) as [row|] eqn:E;
    [|reflexivity].
  assert (Hrow : In row (DB.select_exact_version db
                           (GetObjectExactVersion.Location opts)
                           (GetObjectExactVersion.Version opts))).
  { destruct (DB.select_exact_version db _ _); [discriminate|].
    injection E as ->. left; reflexivity. }
  apply select_exact_version_In in Hrow. destruct Hrow as (_ & Hloc & Hver & Hst).
  rewrite exact_roundtrip by assumption. reflexivity.
Qed.

Lemma limit_1_In {A : Type} (l : list A) (r : A) :
  limit_1 l = Some r -> In r l.
Proof. destruct l; [discriminate|]. intros [= ->]. left; reflexivity. Qed.

Lemma limit_1_None {A : Type} (l : list A) : limit_1 l = None -> l = [].
Proof. destruct l; [reflexivity | discriminate]. Qed.

(** A successful [GetObjectLatestVersion] read back as facts on the query. *)
Lemma latest_success (db : DB.t) (loc : ObjectLocation.t) (o : Object.t) :
  fst (DB.GetObjectLatestVersion db (GetObjectLatestVersion.mk loc)) = (o, None) ->
  ObjectLocation.Verify loc = None /\
  limit_1 (DB.select_latest_version db loc) = Some o.
Proof.
  destruct (ObjectLocation.Verify loc) as [e|] eqn:E.
  - unfold DB.GetObjectLatestVersion, GetObjectLatestVersion.Verify. simpl.
    rewrite E. discriminate.
  - rewrite (GetObjectLatestVersion_unfold db loc E).
    destruct (limit_1 (DB.select_latest_version db loc)); simpl;
      [intros [= ->]; auto | discriminate].
Qed.

Lemma exact_success (db : DB.t) (opts : GetObjectExactVersion.t) (o : Object.t) :
  fst (DB.GetObjectExactVersion db opts) = (o, None) ->
  GetObjectExactVersion.Verify opts = None /\
  In o (DB.objects db) /\
  Object.Location o = GetObjectExactVersion.Location opts /\
  Object.Version o = GetObjectExactVersion.Version opts /\
  Object.Status o = Committed.
Proof.
  destruct (GetObjectExactVersion.Verify opts) as [e|] eqn:E.
  - unfold DB.GetObjectExactVersion. rewrite E. discriminate.
  - rewrite (GetObjectExactVersion_unfold db opts E).
    destruct (limit_1 _) as [row|] eqn:L; simpl; [|discriminate].
    intros [= ->]. split; [reflexivity|].
    apply limit_1_In in L. apply select_exact_version_In in L. exact L.
Qed.

(** X2.  The latest version can be fetched again by its number: when
    [GetObjectLatestVersion] returns an object of positive version and
    location and version name one row of the table,
    [GetObjectExactVersion] at that version returns the same object. *)
Theorem latest_then_exact (db : DB.t) (loc : ObjectLocation.t) (o : Object.t) :
  objects_key db ->
  fst (DB.GetObjectLatestVersion db (GetObjectLatestVersion.mk loc)) = (o, None) ->
  0 < Object.Version o ->
  DB.GetObjectExactVersion db (GetObjectExactVersion.mk (Object.Version o) loc)
  = ((o, None), DB.sent db).
Proof.
  intros Hkey Hlatest Hver.
  apply latest_success in Hlatest. destruct Hlatest as [Hok Hrow].
  apply latest_row_Some in Hrow. destruct Hrow as (Hin & Hloc & Hst & _).
  assert (Hv : GetObjectExactVersion.Verify
                 (GetObjectExactVersion.mk (Object.Version o) loc) = None).
  { apply exact_Verify_None. split; assumption. }
  rewrite (GetObjectExactVersion_unfold db _ Hv). simpl.
  destruct (limit_1 (DB.select_exact_version db loc (Object.Version o)))
    as [row|] eqn:L.
  - apply limit_1_In in L. apply select_exact_version_In in L.
    destruct L as (Hin' & Hloc' & Hver' & _).
    rewrite (Hkey row o Hin' Hin); [reflexivity | congruence | exact Hver'].
  - apply limit_1_None in L. exfalso.
    assert (Ho : In o (DB.select_exact_version db loc (Object.Version o)))
      by (apply select_exact_version_In; auto).
    rewrite L in Ho. destruct Ho.
Qed.

(** X3.  No exact version lies above the latest: when [GetObjectExactVersion]
    succeeds at a version, [GetObjectLatestVersion] succeeds at the same
    location with a version at least as great. *)
Theorem exact_le_latest (db : DB.t) (opts : GetObjectExactVersion.t)
  (o : Object.t) :
  fst (DB.GetObjectExactVersion db opts) = (o, None) ->
  exists o', DB.GetObjectLatestVersion db
               (GetObjectLatestVersion.mk (GetObjectExactVersion.Location opts))
             = ((o', None), DB.sent db) /\
             GetObjectExactVersion.Version opts <= Object.Version o'.
Proof.
  intros H. apply exact_success in H.
  destruct H as (Hv & Hin & Hloc & Hver & Hst).
  apply exact_Verify_None in Hv. destruct Hv as [Hok _].
  rewrite (GetObjectLatestVersion_unfold db _ Hok).
  destruct (limit_1 (DB.select_latest_version db _)) as [row|] eqn:L.
  - exists row. split; [reflexivity|].
    apply latest_row_Some in L. destruct L as (_ & _ & _ & Hmax).
    rewrite <- Hver. apply Hmax; assumption.
  - exfalso. exact (proj1 (latest_row_None db _) L o Hin Hloc Hst).
Qed.

(** X4.  A bucket that holds an object the read path can return is not empty:
    when [GetObjectLatestVersion] succeeds at a location, [BucketEmpty]
    answers false, without error, for its project and bucket. *)
Theorem latest_then_not_empty (db : DB.t) (loc : ObjectLocation.t) (o : Object.t) :
  fst (DB.GetObjectLatestVersion db (GetObjectLatestVersion.mk loc)) = (o, None) ->
  DB.BucketEmpty db (BucketEmpty.mk (ObjectLocation.ProjectID loc)
                                    (ObjectLocation.BucketName loc))
  = ((false, None), DB.sent db).
Proof.
  intros H. apply latest_success in H. destruct H as [Hok Hrow].
  apply latest_row_Some in Hrow. destruct Hrow as (Hin & Hloc & _ & _).
  apply Verify_location_None in Hok. destruct Hok as (Hp & Hb & _).
  unfold DB.BucketEmpty, UUID_IsZero. simpl.
  apply N.eqb_neq in Hp. apply String.eqb_neq in Hb. rewrite Hp, Hb.
  rewrite Scan_limit_1.
  destruct (DB.select_bucket_rows db _ _) as [|v rest] eqn:E; [|reflexivity].
  exfalso. apply (proj1 (select_bucket_rows_nil db _ _) E o Hin).
  rewrite <- Hloc. unfold Object.Location. simpl. auto.
Qed.

(** *** Segments *)

Lemma latest_stream_In (db : DB.t) (loc : ObjectLocation.t) (s : Segment.t) :
  ObjectLocation.Verify loc = None ->
  In s (filter (DB.stream_is (DB.latest_stream_id db loc)) (DB.segments db)) <->
  in_latest_stream db loc s.
Proof.
  intros Hok. unfold in_latest_stream.
  rewrite filter_In, (stream_is_latest db loc s Hok). tauto.
Qed.

Lemma covers_in_latest_stream (db : DB.t) (loc : ObjectLocation.t) (offset : Z)
  (s : Segment.t) :
  covers db loc offset s -> in_latest_stream db loc s.
Proof. unfold covers, in_latest_stream. tauto. Qed.

(** Two segments of the latest stream have the same stream ID. *)
Lemma in_latest_stream_same (db : DB.t) (loc : ObjectLocation.t)
  (s1 s2 : Segment.t) :
  in_latest_stream db loc s1 -> in_latest_stream db loc s2 ->
  Segment.StreamID s1 = Segment.StreamID s2.
Proof.
  intros (_ & o1 & H1 & E1) (_ & o2 & H2 & E2).
  rewrite H1 in H2. injection H2 as <-. congruence.
Qed.

Lemma GetLatestObjectLastSegment_unfold (db : DB.t) (loc : ObjectLocation.t) :
  ObjectLocation.Verify loc = None ->
  DB.GetLatestObjectLastSegment db (GetLatestObjectLastSegment.mk loc) =
  match limit_1 (DB.select_last_segment db loc) with
  | Some row => ((row, None), DB.sent db)
  | None => ((Segment.zero,
              Some (Wrap ErrObjectNotFound (New Error "object or segment missing"))),
             DB.sent db)
  end.
Proof.
  intros Hok. unfold DB.GetLatestObjectLastSegment, GetLatestObjectLastSegment.Verify.
  simpl. rewrite Hok, Scan_limit_1.
  destruct (limit_1 (DB.select_last_segment db loc)) as [row|]; [|reflexivity].
  rewrite Scan_all_roundtrip. reflexivity.
Qed.

(** X1.  [GetLatestObjectLastSegment] refuses a location with an empty field with
    InvalidRequest and sends no query.  For any other location it returns a
    stored segment of the stream of the latest Committed object, one whose
    encoded position no other segment of the stream exceeds, and fails with
    ObjectNotFound when the stream has no stored segment or the location no
    Committed object. *)
Theorem GetLatestObjectLastSegment_spec (db : DB.t) (loc : ObjectLocation.t) :
  ((ObjectLocation.ProjectID loc = 0%N \/
    ObjectLocation.BucketName loc = "" \/
    ObjectLocation.ObjectKey loc = "") ->
   exists e, DB.GetLatestObjectLastSegment db (GetLatestObjectLastSegment.mk loc)
             = ((Segment.zero, Some e), db) /\
             Has ErrInvalidRequest e = true)
  /\
  (ObjectLocation.ProjectID loc <> 0%N ->
   ObjectLocation.BucketName loc <> "" ->
   ObjectLocation.ObjectKey loc <> "" ->
   ((exists s, in_latest_stream db loc s) ->
    exists s, in_latest_stream db loc s /\
              (forall s', in_latest_stream db loc s' ->
                          SegmentPosition.Encode (Segment.Position s') <=
                          SegmentPosition.Encode (Segment.Position s)) /\
              DB.GetLatestObjectLastSegment db (GetLatestObjectLastSegment.mk loc)
              = ((s, None), DB.sent db))
   /\
   ((forall s, ~ in_latest_stream db loc s) ->
    exists e, DB.GetLatestObjectLastSegment db (GetLatestObjectLastSegment.mk loc)
              = ((Segment.zero, Some e), DB.sent db) /\
              Has ErrObjectNotFound e = true)).
Proof.
  split.
  - intros Hbad. apply Verify_location_empty in Hbad.
    destruct Hbad as (e & He & Hkind). exists e. split; [|exact Hkind].
    unfold DB.GetLatestObjectLastSegment, GetLatestObjectLastSegment.Verify.
    simpl. rewrite He. reflexivity.
  - intros Hp Hb Hk.
    assert (Hok : ObjectLocation.Verify loc = None)
      by (apply Verify_location_None; auto).
    rewrite (GetLatestObjectLastSegment_unfold db loc Hok).
    unfold DB.select_last_segment.
    match goal with
    | |- context [limit_1 (order_by_desc ?k ?l)] =>
        destruct (limit_1 (order_by_desc k l)) as [row|] eqn:E
    end.
    + apply limit_1_order_by_desc in E. destruct E as [Hin Hmax].
      apply (latest_stream_In db loc row Hok) in Hin.
      split.
      * intros _. exists row. split; [exact Hin|]. split; [|reflexivity].
        intros s' Hs'. apply Hmax. apply (latest_stream_In db loc s' Hok). exact Hs'.
      * intros Hnone. exfalso. exact (Hnone row Hin).
    + apply limit_1_order_by_desc_None in E.
      split.
      * intros (s & Hs). exfalso.
        apply (latest_stream_In db loc s Hok) in Hs. rewrite E in Hs. destruct Hs.
      * intros _. eexists. split; reflexivity.
Qed.

(** A successful [GetSegmentByOffset] read back as facts on the tables. *)
Lemma offset_success (db : DB.t) (opts : GetSegmentByOffset.t) (s : Segment.t) :
  fst (DB.GetSegmentByOffset db opts) = (s, None) ->
  ObjectLocation.Verify (GetSegmentByOffset.Location opts) = None /\
  covers db (GetSegmentByOffset.Location opts)
         (GetSegmentByOffset.PlainOffset opts) s /\
  forall s', covers db (GetSegmentByOffset.Location opts)
                    (GetSegmentByOffset.PlainOffset opts) s' ->
             Segment.PlainOffset s <= Segment.PlainOffset s'.
Proof.
  unfold DB.GetSegmentByOffset, GetSegmentByOffset.Verify.
  destruct (ObjectLocation.Verify _) as [e|] eqn:Hok; [discriminate|].
  destruct (_ <? 0); [discriminate|]. cbv zeta. rewrite Scan_limit_1.
  unfold DB.select_segment_by_offset.
  match goal with
  | |- context [limit_1 (order_by_asc ?k ?l)] =>
      destruct (limit_1 (order_by_asc k l)) as [row|] eqn:E
  end; simpl; [|discriminate].
  rewrite Scan_all_roundtrip. intros [= ->].
  apply limit_1_order_by_asc in E. destruct E as [Hin Hmin].
  split; [reflexivity|]. split.
  - apply (select_segment_by_offset_In db _ _ s Hok). exact Hin.
  - intros s' Hs'. apply Hmin.
    apply (select_segment_by_offset_In db _ _ s' Hok). exact Hs'.
Qed.

Lemma set_Position_same (s : Segment.t) :
  Segment.set_Position (Segment.Position s) s = s.
Proof. destruct s; reflexivity. Qed.

(** X5.  With no row in the objects table [GetSegmentByPosition] finds no
    segment, whatever the segments table holds: its query selects from both
    tables. *)
Theorem GetSegmentByPosition_needs_objects (db : DB.t)
  (opts : GetSegmentByPosition.t) :
  DB.objects db = [] ->
  GetSegmentByPosition.StreamID opts <> 0%N ->
  DB.GetSegmentByPosition db opts
  = ((Segment.zero, Some (New Error "segment missing")), DB.sent db).
Proof.
  intros Hnil Hid. unfold DB.GetSegmentByPosition, GetSegmentByPosition.Verify,
    UUID_IsZero.
  apply N.eqb_neq in Hid. rewrite Hid. cbv zeta.
  unfold DB.select_segment_by_position. rewrite Hnil. reflexivity.
Qed.

(** X6.  The segment found by offset can be fetched again by its position: when
    [GetSegmentByOffset] returns a segment whose stream ID is not zero, and
    stream and position name one row of the table, [GetSegmentByPosition]
    at its stream and position returns the same segment. *)
Theorem offset_then_position (db : DB.t) (opts : GetSegmentByOffset.t)
  (s : Segment.t) :
  segments_key db ->
  fst (DB.GetSegmentByOffset db opts) = (s, None) ->
  Segment.StreamID s <> 0%N ->
  DB.GetSegmentByPosition db
    (GetSegmentByPosition.mk (Segment.StreamID s) (Segment.Position s))
  = ((s, None), DB.sent db).
Proof.
  intros Hkey Hoff Hid.
  apply offset_success in Hoff. destruct Hoff as (_ & Hcov & _).
  destruct Hcov as (Hin & (o & Hlatest & _) & _).
  apply latest_success in Hlatest. destruct Hlatest as [_ Hrow].
  apply latest_row_Some in Hrow. destruct Hrow as (Ho & _).
  assert (Hne : DB.objects db <> []) by (intros E; rewrite E in Ho; destruct Ho).
  unfold DB.GetSegmentByPosition, GetSegmentByPosition.Verify, UUID_IsZero.
  simpl. apply N.eqb_neq in Hid. rewrite Hid. rewrite Scan_limit_1.
  pose proof (select_segment_by_position_In db (Segment.StreamID s)
                (SegmentPosition.Encode (Segment.Position s))) as HIn.
  destruct (DB.select_segment_by_position db _ _) as [|row rest] eqn:E.
  - exfalso. apply (proj2 (HIn s)). auto.
  - simpl. destruct (proj1 (HIn row) (or_introl eq_refl)) as (_ & Hr & Hsid & Hpos).
    rewrite Scan_payload_roundtrip by assumption.
    rewrite (Hkey row s Hr Hin Hsid Hpos). rewrite set_Position_same. reflexivity.
Qed.

(** X7.  The segment found by offset is not after the last one: when
    [GetSegmentByOffset] returns a segment, [GetLatestObjectLastSegment]
    at the same location returns a segment of the same stream whose encoded
    position is at least as great. *)
Theorem offset_le_last (db : DB.t) (opts : GetSegmentByOffset.t) (s : Segment.t) :
  fst (DB.GetSegmentByOffset db opts) = (s, None) ->
  exists s', DB.GetLatestObjectLastSegment db
               (GetLatestObjectLastSegment.mk (GetSegmentByOffset.Location opts))
             = ((s', None), DB.sent db) /\
             Segment.StreamID s' = Segment.StreamID s /\
             SegmentPosition.Encode (Segment.Position s) <=
             SegmentPosition.Encode (Segment.Position s').
Proof.
  intros Hoff. apply offset_success in Hoff. destruct Hoff as (Hok & Hcov & _).
  apply covers_in_latest_stream in Hcov.
  rewrite (GetLatestObjectLastSegment_unfold db _ Hok).
  unfold DB.select_last_segment.
  match goal with
  | |- context [limit_1 (order_by_desc ?k ?l)] =>
      destruct (limit_1 (order_by_desc k l)) as [row|] eqn:E
  end.
  - apply limit_1_order_by_desc in E. destruct E as [Hin Hmax].
    exists row. split; [reflexivity|]. split.
    + apply (latest_stream_In db _ row Hok) in Hin.
      eapply in_latest_stream_same; eassumption.
    + apply Hmax. apply (latest_stream_In db _ s Hok). exact Hcov.
  - apply limit_1_order_by_desc_None in E. exfalso.
    apply (latest_stream_In db _ s Hok) in Hcov. rewrite E in Hcov. destruct Hcov.
Qed.

(** X8.  When the plain intervals of the segments of a stream do not meet, the
    segment [GetSegmentByOffset] returns is the only stored segment that
    covers the offset. *)
Theorem offset_unique (db : DB.t) (opts : GetSegmentByOffset.t) (s s' : Segment.t) :
  segments_disjoint db ->
  fst (DB.GetSegmentByOffset db opts) = (s, None) ->
  covers db (GetSegmentByOffset.Location opts)
         (GetSegmentByOffset.PlainOffset opts) s' ->
  s' = s.
Proof.
  intros Hdis Hoff Hcov'.
  apply offset_success in Hoff. destruct Hoff as (_ & Hcov & _).
  pose proof (in_latest_stream_same db _ s' s
                (covers_in_latest_stream _ _ _ _ Hcov')
                (covers_in_latest_stream _ _ _ _ Hcov)) as Hsame.
  destruct Hcov as (Hin & _ & Hrange). destruct Hcov' as (Hin' & _ & Hrange').
  apply (Hdis s' s Hin' Hin Hsame); lia.
Qed.

End ReadPathMore.

(** * Further properties of the coupon repository *)

Section CouponsMore.
Import satellitedb conversions.

Variable BytesToUUID : bytes -> UUID * option error.
Variable StatusPending : Z.

(** X9.  [fromDBXCoupon] converts the user, the project and the coupon ID in this
    order and fails with the error of the first that does not convert,
    returning the zero coupon; when all three convert, the coupon carries
    them with the amount, duration, description, status and creation time of
    the row, and type 0 whatever the type of the row. *)
Theorem fromDBXCoupon_spec (r : dbx_Coupon.t) :
  (forall c, fromDBXCoupon BytesToUUID r = (c, None) ->
     snd (BytesToUUID (dbx_Coupon.UserId r)) = None /\
     snd (BytesToUUID (dbx_Coupon.ProjectId r)) = None /\
     snd (BytesToUUID (dbx_Coupon.Id r)) = None /\
     c = Coupon.mk (fst (BytesToUUID (dbx_Coupon.Id r)))
                   (fst (BytesToUUID (dbx_Coupon.UserId r)))
                   (fst (BytesToUUID (dbx_Coupon.ProjectId r)))
                   (dbx_Coupon.Amount r) (dbx_Coupon.Duration r)
                   (dbx_Coupon.Description r) 0 (dbx_Coupon.Status r)
                   (dbx_Coupon.CreatedAt r))
  /\
  (forall c e, fromDBXCoupon BytesToUUID r = (c, Some e) ->
     c = Coupon.zero /\
     (snd (BytesToUUID (dbx_Coupon.UserId r)) = Some e \/
      (snd (BytesToUUID (dbx_Coupon.UserId r)) = None /\
       snd (BytesToUUID (dbx_Coupon.ProjectId r)) = Some e) \/
      (snd (BytesToUUID (dbx_Coupon.UserId r)) = None /\
       snd (BytesToUUID (dbx_Coupon.ProjectId r)) = None /\
       snd (BytesToUUID (dbx_Coupon.Id r)) = Some e)))
  /\
  (snd (BytesToUUID (dbx_Coupon.UserId r)) = None ->
   snd (BytesToUUID (dbx_Coupon.ProjectId r)) = None ->
   snd (BytesToUUID (dbx_Coupon.Id r)) = None ->
   snd (fromDBXCoupon BytesToUUID r) = None).
Proof.
  unfold fromDBXCoupon.
  destruct (BytesToUUID (dbx_Coupon.UserId r)) as [u [eu|]];
  destruct (BytesToUUID (dbx_Coupon.ProjectId r)) as [p [ep|]];
  destruct (BytesToUUID (dbx_Coupon.Id r)) as [i [ei|]]; simpl;
  (split; [|split]);
  try (intros c H; inversion H; subst; auto; fail);
  try (intros c e H; inversion H; subst; auto 10; fail);
  try (intros; congruence).
Qed.

Lemma couponsFromDbxSlice_loop_eq (rows : list dbx_Coupon.t)
  (coupons : list Coupon.t) (errors : list error) :
  couponsFromDbxSlice_loop BytesToUUID rows coupons errors
  = ((coupons ++ converted BytesToUUID rows)%list,
     (errors ++ conversion_errors BytesToUUID rows)%list).
Proof.
  revert coupons errors.
  induction rows as [|r rows IH]; intros coupons errors; simpl.
  - rewrite !app_nil_r. reflexivity.
  - destruct (fromDBXCoupon BytesToUUID r) as [c [e|]]; rewrite IH; simpl.
    + rewrite <- app_assoc. reflexivity.
    + rewrite <- app_assoc. reflexivity.
Qed.

Lemma converted_errors_length (rows : list dbx_Coupon.t) :
  (List.length (converted BytesToUUID rows)
   + List.length (conversion_errors BytesToUUID rows))%nat = List.length rows.
Proof.
  unfold converted, conversion_errors.
  induction rows as [|r rows IH]; simpl; [reflexivity|].
  destruct (fromDBXCoupon BytesToUUID r) as [c [e|]]; simpl; lia.
Qed.

(** X10.  [couponsFromDbxSlice] splits the rows: it returns the coupons of the rows
    that convert, in their order, together with the combination of the
    errors of all the others, so that coupons and collected errors count
    the rows; the error is nil exactly when every row converts. *)
Theorem couponsFromDbxSlice_spec (rows : list dbx_Coupon.t) :
  couponsFromDbxSlice BytesToUUID rows
  = (converted BytesToUUID rows,
     errs_Combine (conversion_errors BytesToUUID rows)) /\
  (List.length (converted BytesToUUID rows)
   + List.length (conversion_errors BytesToUUID rows))%nat = List.length rows /\
  (snd (couponsFromDbxSlice BytesToUUID rows) = None <->
   Forall (fun r => snd (fromDBXCoupon BytesToUUID r) = None) rows).
Proof.
  assert (Heq : couponsFromDbxSlice BytesToUUID rows
                = (converted BytesToUUID rows,
                   errs_Combine (conversion_errors BytesToUUID rows))).
  { unfold couponsFromDbxSlice. rewrite couponsFromDbxSlice_loop_eq. reflexivity. }
  split; [exact Heq|]. split; [apply converted_errors_length|].
  rewrite Heq. clear Heq. simpl. unfold conversion_errors.
  induction rows as [|r rows IH]; simpl.
  - split; [constructor | reflexivity].
  - destruct (fromDBXCoupon BytesToUUID r) as [c [e|]] eqn:E; simpl.
    + split.
      * destruct (flat_map _ rows); discriminate.
      * intros H. inversion H as [|? ? Hr _]; subst.
        rewrite E in Hr. discriminate.
    + rewrite IH. split.
      * intros H. constructor; [rewrite E; reflexivity | exact H].
      * intros H. inversion H; assumption.
Qed.

(** *** Pages *)

Lemma wrap64_small (z : Z) : - 2 ^ 63 <= z < 2 ^ 63 -> wrap64 z = z.
Proof. intros H. unfold wrap64. rewrite Z.mod_small; lia. Qed.

Lemma Forall_window {A : Type} (P : A -> Prop) (result : list A) (limit offset : Z) :
  Forall P result -> Forall P (window result limit offset).
Proof.
  intros H. unfold window.
  rewrite <- (firstn_skipn (Z.to_nat offset) result) in H.
  apply Forall_app in H. destruct H as [_ H].
  rewrite <- (firstn_skipn (Z.to_nat limit) (skipn (Z.to_nat offset) result)) in H.
  apply Forall_app in H. tauto.
Qed.

(** Asking for one row more than the limit and dropping it when it comes
    leaves the window of the limit; the row comes exactly when there are
    more rows than offset and limit together. *)
Lemma window_trim {A : Type} (result : list A) (limit offset : Z) :
  0 <= limit < 2 ^ 63 - 1 -> 0 <= offset ->
  (Z.of_nat (List.length (window result (add64 limit 1) offset)) =? add64 limit 1)
  = (offset + limit <? Z.of_nat (List.length result)) /\
  (if Z.of_nat (List.length (window result (add64 limit 1) offset)) =? add64 limit 1
   then removelast (window result (add64 limit 1) offset)
   else window result (add64 limit 1) offset)
  = window result limit offset.
Proof.
  intros Hl Ho. unfold add64. rewrite wrap64_small by lia.
  unfold window. set (rest := skipn (Z.to_nat offset) result).
  assert (Hrest : List.length rest = (List.length result - Z.to_nat offset)%nat)
    by apply length_skipn.
  replace (Z.to_nat (limit + 1)) with (S (Z.to_nat limit)) by lia.
  rewrite length_firstn.
  destruct (Nat.lt_ge_cases (Z.to_nat limit) (List.length rest)) as [Hlt|Hge].
  - replace (Z.of_nat (Nat.min (S (Z.to_nat limit)) (List.length rest)) =? limit + 1)
      with true by (symmetry; apply Z.eqb_eq; lia).
    split.
    + symmetry. apply Z.ltb_lt. lia.
    + apply removelast_firstn. exact Hlt.
  - replace (Z.of_nat (Nat.min (S (Z.to_nat limit)) (List.length rest)) =? limit + 1)
      with false by (symmetry; apply Z.eqb_neq; lia).
    split.
    + symmetry. apply Z.ltb_ge. lia.
    + rewrite !firstn_all2 by lia. reflexivity.
Qed.

Lemma converted_all (rows : list dbx_Coupon.t) :
  Forall (fun r => snd (fromDBXCoupon BytesToUUID r) = None) rows ->
  couponsFromDbxSlice BytesToUUID rows
  = (map (fun r => fst (fromDBXCoupon BytesToUUID r)) rows, None).
Proof.
  intros H. unfold couponsFromDbxSlice. rewrite couponsFromDbxSlice_loop_eq.
  simpl. unfold converted, conversion_errors.
  induction H as [|r rows Hr _ IH]; [reflexivity|].
  simpl. destruct (fromDBXCoupon BytesToUUID r) as [c [e|]]; [discriminate|].
  simpl. injection IH as IH1 IH2.
  destruct (flat_map _ rows) eqn:E in IH2 |- *; [|destruct l; discriminate].
  rewrite IH1. reflexivity.
Qed.

Lemma ListPaged_window (db : satelliteDB.t) (result : list dbx_Coupon.t)
  (offset limit : Z) (before : Time) (status : Z) :
  satelliteDB.Limited_Coupon_By_CreatedAt_LessOrEqual_And_Status_OrderBy_Desc_CreatedAt
    db before StatusPending (limit + 1) offset
  = (window result (limit + 1) offset, None) ->
  Forall (fun r => snd (fromDBXCoupon BytesToUUID r) = None) result ->
  0 <= limit -> 0 <= offset -> offset + limit + 1 < 2 ^ 63 ->
  ListPaged BytesToUUID StatusPending db offset limit before status
  = (CouponsPage.mk
       (map (fun r => fst (fromDBXCoupon BytesToUUID r)) (window result limit offset))
       (offset + limit <? Z.of_nat (List.length result))
       (if offset + limit <? Z.of_nat (List.length result)
        then offset + limit + 1 else 0),
     None).
Proof.
  intros Hdb Hall Hl Ho Hsum. unfold ListPaged.
  assert (Ha : add64 limit 1 = limit + 1)
    by (unfold add64; apply wrap64_small; lia).
  rewrite <- Ha in Hdb. rewrite Hdb.
  destruct (window_trim result limit offset) as [Hmore Htrim]; [lia | lia |].
  rewrite Hmore in *.
  destruct (offset + limit <? Z.of_nat (List.length result)).
  - rewrite Htrim, (converted_all _ (Forall_window _ _ _ _ Hall)). simpl.
    unfold add64. rewrite !wrap64_small by (rewrite ?wrap64_small; lia).
    reflexivity.
  - rewrite Htrim, (converted_all _ (Forall_window _ _ _ _ Hall)). reflexivity.
Qed.

(** X11.  When the query behind it cuts an ordered result by limit and offset and
    every row converts, [ListPaged] returns the coupons of the rows from
    [offset] on, [limit] of them at most; [Next] tells whether the result
    goes on after them, and [NextOffset] is then [offset + limit + 1].  The
    [status] argument has no part in it. *)
Theorem ListPaged_page (db : satelliteDB.t) (result : list dbx_Coupon.t)
  (offset limit : Z) (before : Time) (status : Z) :
  satelliteDB.Limited_Coupon_By_CreatedAt_LessOrEqual_And_Status_OrderBy_Desc_CreatedAt
    db before StatusPending (limit + 1) offset
  = (window result (limit + 1) offset, None) ->
  Forall (fun r => snd (fromDBXCoupon BytesToUUID r) = None) result ->
  0 <= limit -> 0 <= offset -> offset + limit + 1 < 2 ^ 63 ->
  ListPaged BytesToUUID StatusPending db offset limit before status
  = (CouponsPage.mk
       (map (fun r => fst (fromDBXCoupon BytesToUUID r)) (window result limit offset))
       (offset + limit <? Z.of_nat (List.length result))
       (if offset + limit <? Z.of_nat (List.length result)
        then offset + limit + 1 else 0),
     None).
Proof. apply ListPaged_window. Qed.

(** X12.  Following [NextOffset] loses a row: when the result goes on after the
    first page, the page fetched at its [NextOffset] starts one row after
    the row that follows the first page, so the two pages together hold the
    rows [offset .. offset+limit-1] and [offset+limit+1 ..], and the row at
    index [offset + limit] is in neither. *)
Theorem ListPaged_next_skips (db : satelliteDB.t) (result : list dbx_Coupon.t)
  (offset limit : Z) (before : Time) (status : Z) :
  (forall off,
     satelliteDB.Limited_Coupon_By_CreatedAt_LessOrEqual_And_Status_OrderBy_Desc_CreatedAt
       db before StatusPending (limit + 1) off
     = (window result (limit + 1) off, None)) ->
  Forall (fun r => snd (fromDBXCoupon BytesToUUID r) = None) result ->
  0 <= limit -> 0 <= offset -> offset + 2 * limit + 2 < 2 ^ 63 ->
  offset + limit < Z.of_nat (List.length result) ->
  exists first second,
    ListPaged BytesToUUID StatusPending db offset limit before status
    = (first, None) /\
    CouponsPage.Next first = true /\
    CouponsPage.NextOffset first = offset + limit + 1 /\
    ListPaged BytesToUUID StatusPending db (CouponsPage.NextOffset first) limit
      before status = (second, None) /\
    CouponsPage.Coupons first
    = map (fun r => fst (fromDBXCoupon BytesToUUID r)) (window result limit offset) /\
    CouponsPage.Coupons second
    = map (fun r => fst (fromDBXCoupon BytesToUUID r))
          (window result limit (offset + limit + 1)).
Proof.
  intros Hdb Hall Hl Ho Hsum Hmore.
  pose proof (ListPaged_window db result offset limit before status
                (Hdb offset) Hall Hl Ho ltac:(lia)) as H1.
  pose proof (ListPaged_window db result (offset + limit + 1) limit before status
                (Hdb (offset + limit + 1)) Hall Hl ltac:(lia) ltac:(lia)) as H2.
  apply Z.ltb_lt in Hmore. rewrite Hmore in H1.
  eexists. eexists. split; [exact H1|]. simpl.
  split; [reflexivity|]. split; [reflexivity|].
  split; [exact H2|]. split; reflexivity.
Qed.

End CouponsMore.

(** ** Coupon usages *)

Section UsagesMore.
Import satellitedb conversions coupon_usages.

Variable BytesToUUID : bytes -> UUID * option error.

Lemma ListUnapplied_loop_all (rows : list dbx_CouponUsage.t)
  (usages : list CouponUsage.t) :
  Forall (fun r => snd (couponUsageFromDbxSlice BytesToUUID r) = None) rows ->
  ListUnapplied_loop BytesToUUID rows usages
  = ((usages ++ map (fun r => fst (couponUsageFromDbxSlice BytesToUUID r)) rows)%list,
     None).
Proof.
  intros H. revert usages.
  induction H as [|r rows Hr _ IH]; intros usages; simpl.
  - rewrite app_nil_r. reflexivity.
  - destruct (couponUsageFromDbxSlice BytesToUUID r) as [c [e|]]; [discriminate|].
    rewrite IH. simpl. rewrite <- app_assoc. reflexivity.
Qed.

Lemma ListUnapplied_loop_first (good rest : list dbx_CouponUsage.t)
  (bad : dbx_CouponUsage.t) (e : error) (usages : list CouponUsage.t) :
  Forall (fun r => snd (couponUsageFromDbxSlice BytesToUUID r) = None) good ->
  snd (couponUsageFromDbxSlice BytesToUUID bad) = Some e ->
  ListUnapplied_loop BytesToUUID (good ++ bad :: rest) usages = ([], Some e).
Proof.
  intros H Hbad. revert usages.
  induction H as [|r rows Hr _ IH]; intros usages; simpl.
  - destruct (couponUsageFromDbxSlice BytesToUUID bad) as [c [e'|]];
      simpl in Hbad; [injection Hbad as ->; reflexivity | discriminate].
  - destruct (couponUsageFromDbxSlice BytesToUUID r) as [c [e'|]]; [discriminate|].
    apply IH.
Qed.

(** X13.  [ListUnapplied] hands the first conversion error to its caller: when the
    query succeeds and, among the records it keeps, a record that does not
    convert comes after records that all do, the call returns the zero-value
    page and the error of that record, whatever follows it. *)
Theorem ListUnapplied_first_error (db : usagesDB.t) (offset limit : Z)
  (before : Time) (records good rest : list dbx_CouponUsage.t)
  (bad : dbx_CouponUsage.t) (e : error) :
  usagesDB.Limited_CouponUsage_By_Period_LessOrEqual_And_Status_Equal_Number_OrderBy_Desc_Period
    db before (add64 limit 1) offset = (records, None) ->
  (if Z.of_nat (List.length records) =? add64 limit 1
   then removelast records else records) = (good ++ bad :: rest)%list ->
  Forall (fun r => snd (couponUsageFromDbxSlice BytesToUUID r) = None) good ->
  snd (couponUsageFromDbxSlice BytesToUUID bad) = Some e ->
  ListUnapplied BytesToUUID db offset limit before
  = (CouponUsagePage.zero, Some e).
Proof.
  intros Hq Hkept Hgood Hbad. unfold ListUnapplied. rewrite Hq.
  destruct (Z.of_nat (List.length records) =? add64 limit 1);
    rewrite Hkept, (ListUnapplied_loop_first good rest bad e _ Hgood Hbad);
    reflexivity.
Qed.

(** X14.  When the query behind it cuts an ordered result by limit and offset and
    every record converts, [ListUnapplied] returns the usages of the records
    from [offset] on, [limit] of them at most, with [Next] set exactly when
    the result goes on after them and [NextOffset] then
    [offset + limit + 1]. *)
Theorem ListUnapplied_page (db : usagesDB.t) (result : list dbx_CouponUsage.t)
  (offset limit : Z) (before : Time) :
  usagesDB.Limited_CouponUsage_By_Period_LessOrEqual_And_Status_Equal_Number_OrderBy_Desc_Period
    db before (limit + 1) offset = (window result (limit + 1) offset, None) ->
  Forall (fun r => snd (couponUsageFromDbxSlice BytesToUUID r) = None) result ->
  0 <= limit -> 0 <= offset -> offset + limit + 1 < 2 ^ 63 ->
  ListUnapplied BytesToUUID db offset limit before
  = (CouponUsagePage.mk
       (map (fun r => fst (couponUsageFromDbxSlice BytesToUUID r))
            (window result limit offset))
       (offset + limit <? Z.of_nat (List.length result))
       (if offset + limit <? Z.of_nat (List.length result)
        then offset + limit + 1 else 0),
     None).
Proof.
  intros Hdb Hall Hl Ho Hsum. unfold ListUnapplied.
  assert (Ha : add64 limit 1 = limit + 1)
    by (unfold add64; apply wrap64_small; lia).
  rewrite <- Ha in Hdb. rewrite Hdb.
  destruct (window_trim result limit offset) as [Hmore Htrim]; [lia | lia |].
  rewrite Hmore in *.
  destruct (offset + limit <? Z.of_nat (List.length result)).
  - rewrite Htrim, (ListUnapplied_loop_all _ _ (Forall_window _ _ _ _ Hall)). simpl.
    unfold add64. rewrite !wrap64_small by (rewrite ?wrap64_small; lia).
    reflexivity.
  - rewrite Htrim, (ListUnapplied_loop_all _ _ (Forall_window _ _ _ _ Hall)).
    reflexivity.
Qed.

End UsagesMore.

Section UsageQueries.
Import satellitedb coupon_usages.

Lemma bytes_eqb_eq (a b : bytes) : bytes_eqb a b = true <-> a = b.
Proof.
  revert b. induction a as [|x a IH]; intros [|y b]; simpl;
    try (split; [discriminate | discriminate]); [tauto|].
  rewrite andb_true_iff, IH. split.
  - intros [Hxy ->]. apply Byte.byte_dec_bl in Hxy. subst. reflexivity.
  - intros [= -> ->]. split; [apply Byte.byte_dec_lb|]; reflexivity.
Qed.

Lemma of_coupon_In (couponID : UUID) (usages : list dbx_CouponUsage.t)
  (u : dbx_CouponUsage.t) :
  In u (of_coupon couponID usages) <->
  In u usages /\ dbx_CouponUsage.CouponId u = couponID.
Proof. unfold of_coupon. rewrite filter_In, bytes_eqb_eq. tauto. Qed.

(** X15.  [GetLatest] returns the greatest period among the usages of the coupon,
    and the zero time with ErrNoCouponUsages (wrapping [sql.ErrNoRows]) when
    the coupon has no usage. *)
Theorem GetLatest_spec (usages : list dbx_CouponUsage.t) (couponID : UUID) :
  ((exists u, In u usages /\ dbx_CouponUsage.CouponId u = couponID) ->
   exists u, In u usages /\ dbx_CouponUsage.CouponId u = couponID /\
             (forall u', In u' usages -> dbx_CouponUsage.CouponId u' = couponID ->
                         dbx_CouponUsage.Period u' <= dbx_CouponUsage.Period u) /\
             GetLatest usages couponID = (dbx_CouponUsage.Period u, None))
  /\
  ((forall u, In u usages -> dbx_CouponUsage.CouponId u <> couponID) ->
   GetLatest usages couponID = (0, Some (ErrNoCouponUsages_Wrap sql_ErrNoRows))).
Proof.
  unfold GetLatest, Scan_latest_period.
  destruct (limit_1 (order_by_desc dbx_CouponUsage.Period (of_coupon couponID usages)))
    as [row|] eqn:E.
  - apply limit_1_order_by_desc in E. destruct E as [Hin Hmax].
    apply of_coupon_In in Hin. destruct Hin as [Hin Hid].
    split.
    + intros _. exists row. repeat split; auto.
      intros u' Hu' Hid'. apply Hmax. apply of_coupon_In. auto.
    + intros Hnone. exfalso. exact (Hnone row Hin Hid).
  - apply limit_1_order_by_desc_None in E.
    split.
    + intros (u & Hu & Hid). exfalso.
      assert (H : In u (of_coupon couponID usages)) by (apply of_coupon_In; auto).
      rewrite E in H. destruct H.
    + intros _. reflexivity.
Qed.

Lemma of_coupon_app (couponID : UUID) (us us' : list dbx_CouponUsage.t) :
  of_coupon couponID (us ++ us') = (of_coupon couponID us ++ of_coupon couponID us')%list.
Proof. apply filter_app. Qed.

Lemma sum_app (l l' : list Z) :
  fold_right Z.add 0 (l ++ l') = fold_right Z.add 0 l + fold_right Z.add 0 l'.
Proof. induction l as [|x l IH]; simpl; [reflexivity | rewrite IH; lia]. Qed.

(** X16.  [TotalUsage] never fails for want of rows: the total of a coupon that has
    no usage is 0, and the total over two lists of usages put together is
    the sum of the totals over each. *)
Theorem TotalUsage_sum (usages : list dbx_CouponUsage.t) (couponID : UUID) :
  snd (TotalUsage usages couponID) = None /\
  ((forall u, In u usages -> dbx_CouponUsage.CouponId u <> couponID) ->
   fst (TotalUsage usages couponID) = 0) /\
  (forall usages',
     fst (TotalUsage (usages ++ usages') couponID)
     = fst (TotalUsage usages couponID) + fst (TotalUsage usages' couponID)).
Proof.
  unfold TotalUsage. simpl. split; [reflexivity|]. split.
  - intros Hnone.
    assert (E : of_coupon couponID usages = []).
    { destruct (of_coupon couponID usages) as [|u rest] eqn:E; [reflexivity|].
      assert (H : In u (of_coupon couponID usages)) by (rewrite E; left; reflexivity).
      apply of_coupon_In in H. destruct H as [Hu Hid].
      exfalso. exact (Hnone u Hu Hid). }
    rewrite E. reflexivity.
  - intros usages'. rewrite of_coupon_app, map_app, sum_app. reflexivity.
Qed.

(** X17.  [TotalUsageForPeriod] counts the usages of every period: one more usage
    of the coupon raises the total by its amount for whatever period the
    total is asked, the period of the usage or any other. *)
Theorem TotalUsageForPeriod_every_period (usages : list dbx_CouponUsage.t)
  (u : dbx_CouponUsage.t) (couponID : UUID) (period : Time) :
  dbx_CouponUsage.CouponId u = couponID ->
  TotalUsageForPeriod (usages ++ [u]) couponID period
  = (fst (TotalUsageForPeriod usages couponID period) + dbx_CouponUsage.Amount u,
     None).
Proof.
  intros Hid. unfold TotalUsageForPeriod. simpl.
  rewrite of_coupon_app, map_app, sum_app. f_equal. f_equal.
  unfold of_coupon. simpl. rewrite (proj2 (bytes_eqb_eq _ _) Hid). simpl. lia.
Qed.

(** *** The argument list *)

Lemma placeholders_app (a b : string) :
  placeholders (a ++ b) = (placeholders a + placeholders b)%nat.
Proof.
  induction a as [|c a IH]; simpl; [reflexivity|].
  destruct (Ascii.eqb c "?"); rewrite IH; reflexivity.
Qed.

Lemma length_append (a b : string) :
  String.length (a ++ b) = (String.length a + String.length b)%nat.
Proof. induction a as [|c a IH]; simpl; [reflexivity | rewrite IH; reflexivity]. Qed.

Lemma middle_loop_facts (iterations : nat) (middle : string) :
  placeholders (middle_loop iterations middle)
  = (placeholders middle + iterations)%nat /\
  String.length (middle_loop iterations middle)
  = (String.length middle + 3 * iterations)%nat.
Proof.
  revert middle. induction iterations as [|n IH]; intros middle; simpl.
  - split; lia.
  - destruct (IH (middle ++ ", ?")) as [Hp Hl].
    rewrite Hp, Hl, placeholders_app, length_append. simpl. split; lia.
Qed.

(** X18.  [generateArgumentsDBX] writes one '?' for each of [length] arguments:
    the text has [length] placeholders (none when [length] is not positive,
    where it is "()"), and three characters for each when there is one at
    least. *)
Theorem generateArgumentsDBX_spec (length : Z) :
  placeholders (generateArgumentsDBX length) = Z.to_nat length /\
  (1 <= length ->
   String.length (generateArgumentsDBX length) = Z.to_nat (3 * length)) /\
  (length <= 0 -> generateArgumentsDBX length = "()").
Proof.
  unfold generateArgumentsDBX.
  destruct (middle_loop_facts (Z.to_nat (length - 1)) "") as [Hp Hl].
  destruct (Z.geb_spec length 1) as [Hge|Hlt].
  - split; [|split].
    + rewrite !placeholders_app, Hp. simpl. clear Hp Hl. lia.
    + intros _. rewrite !length_append, Hl.
      change (String.length "(") with 1%nat. change (String.length "?") with 1%nat.
      change (String.length ")") with 1%nat. change (String.length "") with 0%nat.
      clear Hp Hl. lia.
    + intros H. lia.
  - clear Hp Hl. replace (Z.to_nat (length - 1)) with O by lia. simpl.
    split; [lia|]. split; [intros H; lia | reflexivity].
Qed.

End UsageQueries.

(** ** More runs on the concrete tables *)

Section MoreRuns.
Import metabase tables.

Lemma samples_objects_key : objects_key samples.db.
Proof.
  intros o1 o2 H1 H2 _ Hv. simpl in H1, H2.
  destruct H1 as [<-|[<-|[<-|[]]]]; destruct H2 as [<-|[<-|[<-|[]]]];
    try reflexivity; discriminate.
Defined.

Lemma samples_segments_key : segments_key samples.db.
Proof.
  intros s1 s2 H1 H2 Hs Hp. simpl in H1, H2.
  destruct H1 as [<-|[<-|[<-|[<-|[]]]]]; destruct H2 as [<-|[<-|[<-|[<-|[]]]]];
    try reflexivity; discriminate.
Defined.

Lemma samples_segments_disjoint : segments_disjoint samples.db.
Proof.
  intros s1 s2 H1 H2 Hs Ha Hb. simpl in H1, H2.
  destruct H1 as [<-|[<-|[<-|[<-|[]]]]]; destruct H2 as [<-|[<-|[<-|[<-|[]]]]];
    try reflexivity; try discriminate; simpl in Ha, Hb; lia.
Defined.

Lemma latest_then_exact_witness :
  DB.GetObjectExactVersion samples.db (GetObjectExactVersion.mk 2 samples.loc)
  = ((samples.row 2 Committed 12%N, None), DB.sent samples.db).
Proof.
  apply (latest_then_exact samples.db samples.loc (samples.row 2 Committed 12%N)
           samples_objects_key).
  - reflexivity.
  - reflexivity.
Defined.

Lemma exact_le_latest_witness :
  exists o', DB.GetObjectLatestVersion samples.db
               (GetObjectLatestVersion.mk samples.loc)
             = ((o', None), DB.sent samples.db) /\
             1 <= Object.Version o'.
Proof.
  apply (exact_le_latest samples.db (GetObjectExactVersion.mk 1 samples.loc)
           (samples.row 1 Committed 11%N)).
  reflexivity.
Defined.

Lemma latest_then_not_empty_witness :
  DB.BucketEmpty samples.db (BucketEmpty.mk 7%N "bucket")
  = ((false, None), DB.sent samples.db).
Proof.
  apply (latest_then_not_empty samples.db samples.loc (samples.row 2 Committed 12%N)).
  reflexivity.
Defined.

Lemma GetLatestObjectLastSegment_spec_witness :
  exists s, in_latest_stream samples.db samples.loc s /\
            (forall s', in_latest_stream samples.db samples.loc s' ->
                        SegmentPosition.Encode (Segment.Position s') <=
                        SegmentPosition.Encode (Segment.Position s)) /\
            DB.GetLatestObjectLastSegment samples.db
              (GetLatestObjectLastSegment.mk samples.loc)
            = ((s, None), DB.sent samples.db).
Proof.
  refine (proj1 (proj2 (GetLatestObjectLastSegment_spec samples.db samples.loc)
                   _ _ _) _);
    [discriminate | discriminate | discriminate |].
  exists (samples.seg 12%N 0 0 100). split.
  - simpl. auto.
  - exists (samples.row 2 Committed 12%N). split; reflexivity.
Defined.

Lemma GetSegmentByPosition_needs_objects_witness :
  In (samples.seg 12%N 0 0 100) (DB.segments samples_more.db_no_objects) /\
  DB.GetSegmentByPosition samples_more.db_no_objects
    (GetSegmentByPosition.mk 12%N (SegmentPosition.mk 0 0))
  = ((Segment.zero, Some (New Error "segment missing")),
     DB.sent samples_more.db_no_objects).
Proof.
  split; [left; reflexivity|].
  apply (GetSegmentByPosition_needs_objects samples_more.db_no_objects
           (GetSegmentByPosition.mk 12%N (SegmentPosition.mk 0 0))).
  - reflexivity.
  - discriminate.
Defined.

Lemma offset_then_position_witness :
  DB.GetSegmentByPosition samples.db
    (GetSegmentByPosition.mk 12%N (SegmentPosition.mk 0 1))
  = ((samples.seg 12%N 1 100 100, None), DB.sent samples.db).
Proof.
  apply (offset_then_position samples.db (GetSegmentByOffset.mk samples.loc 150)
           (samples.seg 12%N 1 100 100) samples_segments_key).
  - reflexivity.
  - discriminate.
Defined.

Lemma offset_le_last_witness :
  exists s', DB.GetLatestObjectLastSegment samples.db
               (GetLatestObjectLastSegment.mk samples.loc)
             = ((s', None), DB.sent samples.db) /\
             Segment.StreamID s' = 12%N /\
             1 <= SegmentPosition.Encode (Segment.Position s').
Proof.
  apply (offset_le_last samples.db (GetSegmentByOffset.mk samples.loc 150)
           (samples.seg 12%N 1 100 100)).
  reflexivity.
Defined.

Lemma offset_unique_witness :
  fst (DB.GetSegmentByOffset samples.db (GetSegmentByOffset.mk samples.loc 150))
  = (samples.seg 12%N 1 100 100, None) /\
  covers samples.db samples.loc 150 (samples.seg 12%N 1 100 100) /\
  samples.seg 12%N 1 100 100 = samples.seg 12%N 1 100 100.
Proof.
  assert (Hcov : covers samples.db samples.loc 150 (samples.seg 12%N 1 100 100)).
  { unfold covers. split; [|split].
    - simpl. auto.
    - exists (samples.row 2 Committed 12%N). split; reflexivity.
    - simpl. lia. }
  split; [reflexivity|]. split; [exact Hcov|].
  apply (offset_unique samples.db (GetSegmentByOffset.mk samples.loc 150)
           (samples.seg 12%N 1 100 100) (samples.seg 12%N 1 100 100)
           samples_segments_disjoint).
  - reflexivity.
  - exact Hcov.
Defined.

End MoreRuns.

Section MoreCouponRuns.
Import satellitedb conversions coupon_usages.

Lemma five_coupons_convert :
  Forall (fun r => snd (fromDBXCoupon BytesToUUID_16 r) = None)
         samples_more.five_coupons.
Proof. repeat constructor. Defined.

Lemma usages_convert :
  Forall (fun r => snd (couponUsageFromDbxSlice BytesToUUID_16 r) = None)
         samples_more.usages.
Proof. repeat constructor. Defined.

Lemma ListPaged_page_witness :
  ListPaged BytesToUUID_16 0 samples_more.coupons_db 1 2 2000 0
  = (CouponsPage.mk
       (map (fun r => fst (fromDBXCoupon BytesToUUID_16 r))
            (window samples_more.five_coupons 2 1))
       true 4, None).
Proof.
  apply (ListPaged_page BytesToUUID_16 0 samples_more.coupons_db
           samples_more.five_coupons 1 2 2000 0).
  - reflexivity.
  - exact five_coupons_convert.
  - lia.
  - lia.
  - lia.
Defined.

Lemma ListPaged_next_skips_witness :
  exists first second,
    ListPaged BytesToUUID_16 0 samples_more.coupons_db 0 2 2000 0
    = (first, None) /\
    CouponsPage.Next first = true /\
    CouponsPage.NextOffset first = 3 /\
    ListPaged BytesToUUID_16 0 samples_more.coupons_db
      (CouponsPage.NextOffset first) 2 2000 0 = (second, None) /\
    CouponsPage.Coupons first
    = map (fun r => fst (fromDBXCoupon BytesToUUID_16 r))
          (window samples_more.five_coupons 2 0) /\
    CouponsPage.Coupons second
    = map (fun r => fst (fromDBXCoupon BytesToUUID_16 r))
          (window samples_more.five_coupons 2 3).
Proof.
  apply (ListPaged_next_skips BytesToUUID_16 0 samples_more.coupons_db
           samples_more.five_coupons 0 2 2000 0).
  - intros off. reflexivity.
  - exact five_coupons_convert.
  - lia.
  - lia.
  - lia.
  - simpl. lia.
Defined.

Lemma ListUnapplied_first_error_witness :
  ListUnapplied BytesToUUID_16 samples_more.usages_with_bad_row 0 10 2000
  = (CouponUsagePage.zero, Some (errs_New "Invalid uuid")).
Proof.
  apply (ListUnapplied_first_error BytesToUUID_16
           samples_more.usages_with_bad_row 0 10 2000
           [samples_more.usage samples.sixteen 30 100;
            samples_more.usage (repeat Byte.x01 15) 7 300;
            samples_more.usage (repeat Byte.x01 3) 12 200]
           [samples_more.usage samples.sixteen 30 100]
           [samples_more.usage (repeat Byte.x01 3) 12 200]
           (samples_more.usage (repeat Byte.x01 15) 7 300)
           (errs_New "Invalid uuid")).
  - reflexivity.
  - reflexivity.
  - repeat constructor.
  - reflexivity.
Defined.

Lemma ListUnapplied_page_witness :
  ListUnapplied BytesToUUID_16 samples_more.usages_db 0 2 2000
  = (CouponUsagePage.mk
       (map (fun r => fst (couponUsageFromDbxSlice BytesToUUID_16 r))
            (window samples_more.usages 2 0))
       true 3, None).
Proof.
  apply (ListUnapplied_page BytesToUUID_16 samples_more.usages_db
           samples_more.usages 0 2 2000).
  - reflexivity.
  - exact usages_convert.
  - lia.
  - lia.
  - lia.
Defined.

Lemma TotalUsageForPeriod_every_period_witness :
  TotalUsageForPeriod
    (samples_more.usages ++ [samples_more.usage samples.sixteen 5 900])
    samples.sixteen 100
  = (fst (TotalUsageForPeriod samples_more.usages samples.sixteen 100) + 5, None).
Proof.
  apply (TotalUsageForPeriod_every_period samples_more.usages
           (samples_more.usage samples.sixteen 5 900) samples.sixteen 100).
  reflexivity.
Defined.

End MoreCouponRuns.
